(** * Sales dashboard: the sheet-to-PostgreSQL synchroniser and the dashboard loader

    A shallow embedding of [google_sheets_to_postgres_sync.py] (the
    synchroniser), of the data pipeline of [app_v1.py] (the loader
    [load_full_sales_data_from_db], the sidebar filter [filtered_df], the
    follow-up counters, the totals and group statistics of the tabs and the
    date inputs) and of [webhook_server.py] (the request handler
    [sync_sheets]), with the properties the specification states about them
    and further properties read off the code.

    Conventions.
    - Text is ASCII text ([string]); [str.lower], [str.strip] and [str.title]
      are the ASCII fragments of the Python methods.
    - A cell of a pandas frame is a [value]; [None], [NaN] and [NaT] are the
      single null [VNull] (they are the values [pd.isna] accepts).
    - Numbers are exact rationals: binary floating point is not modelled.
    - The pandas parsers ([pd.to_datetime], [pd.to_numeric]) and Python's
      [str] on numbers and dates are parameters of the development; the
      end-to-end scenario instantiates them with an ISO date reader and a
      decimal reader.
    - The relational store keeps the tuples it is given and hands them back
      unchanged; type coercion inside PostgreSQL is outside the model. *)

From Stdlib Require Import String Ascii ZArith QArith Bool Arith Lia List.
Import ListNotations.
Local Close Scope Q_scope.
Local Open Scope string_scope.
Local Open Scope list_scope.

(** ** Python string methods (ASCII) *)

Module Py.

Definition is_space (c : ascii) : bool :=
  let n := nat_of_ascii c in
  ((9 <=? n) && (n <=? 13) || (28 <=? n) && (n <=? 32))%nat.

Definition is_upper (c : ascii) : bool :=
  let n := nat_of_ascii c in ((65 <=? n) && (n <=? 90))%nat.

Definition is_lower (c : ascii) : bool :=
  let n := nat_of_ascii c in ((97 <=? n) && (n <=? 122))%nat.

Definition to_lower (c : ascii) : ascii :=
  if is_upper c then ascii_of_nat (nat_of_ascii c + 32)%nat else c.

Definition to_upper (c : ascii) : ascii :=
  if is_lower c then ascii_of_nat (nat_of_ascii c - 32)%nat else c.

(** [s.lower()] *)
Fixpoint lower (s : string) : string :=
  match s with
  | EmptyString => EmptyString
  | String c s' => String (to_lower c) (lower s')
  end.

(** [s.lstrip()] *)
Fixpoint lstrip (s : string) : string :=
  match s with
  | EmptyString => EmptyString
  | String c s' => if is_space c then lstrip s' else s
  end.

Definition rev (s : string) : string :=
  string_of_list_ascii (List.rev (list_ascii_of_string s)).

(** [s.strip()] *)
Definition strip (s : string) : string := rev (lstrip (rev (lstrip s))).

(** [s.replace(c, by)] for a one-character pattern. *)
Fixpoint replace (c : ascii) (by_ : string) (s : string) : string :=
  match s with
  | EmptyString => EmptyString
  | String d s' =>
      if Ascii.eqb d c then (by_ ++ replace c by_ s')%string
      else String d (replace c by_ s')
  end.

(** [re.sub('[$,]', '', s)] *)
Fixpoint drop_dollar_comma (s : string) : string :=
  match s with
  | EmptyString => EmptyString
  | String d s' =>
      if Ascii.eqb d "$"%char || Ascii.eqb d ","%char
      then drop_dollar_comma s'
      else String d (drop_dollar_comma s')
  end.

(** [s.title()]: a cased letter is upper-cased when the character before it
    is not cased, and lower-cased otherwise. *)
Fixpoint title_from (prev_cased : bool) (s : string) : string :=
  match s with
  | EmptyString => EmptyString
  | String c s' =>
      let cased := is_upper c || is_lower c in
      String (if cased then (if prev_cased then to_lower c else to_upper c) else c)
             (title_from cased s')
  end.

Definition title (s : string) : string := title_from false s.

(** [needle in s] for strings. *)
Fixpoint contains (needle s : string) : bool :=
  String.prefix needle s ||
  match s with
  | EmptyString => false
  | String _ s' => contains needle s'
  end.

(** [k in l] for a list of strings. *)
Definition mem (k : string) (l : list string) : bool :=
  existsb (String.eqb k) l.

End Py.

(** ** Cell values *)

Record date := mkdate { year : Z; month : Z; day : Z }.

(** [d1 <= d2] on [datetime.date]. *)
Definition date_leb (d1 d2 : date) : bool :=
  (year d1 <? year d2)%Z
  || ((year d1 =? year d2)%Z
      && ((month d1 <? month d2)%Z
          || ((month d1 =? month d2)%Z && (day d1 <=? day d2)%Z))).

Inductive value : Type :=
| VNull                (* None, NaN, NaT *)
| VStr (s : string)
| VInt (z : Z)         (* int *)
| VNum (q : Q)         (* float, Decimal *)
| VDate (d : date).

(** [pd.isna(v)], [series.notna()] *)
Definition isna (v : value) : bool :=
  match v with VNull => true | _ => false end.

Definition notna (v : value) : bool := negb (isna v).

(** [v == s] against a string literal, element-wise: a null or a value of
    another type is not equal to it. *)
Definition eq_str (v : value) (s : string) : bool :=
  match v with VStr s' => String.eqb s' s | _ => false end.

(** [v != s], element-wise. *)
Definition ne_str (v : value) (s : string) : bool := negb (eq_str v s).

(** ** Frames

    A pandas frame: its column labels and its rows, a row giving the value
    under each label (null under a label the frame does not have).  A label
    is looked up by first occurrence; a frame with a repeated label, for
    which pandas selects a sub-frame and not a column, is outside the
    properties below. *)

Definition Row := string -> value.

Record DataFrame := mkframe { columns : list string; rows : list Row }.

(** [pd.DataFrame()] *)
Definition empty_frame : DataFrame := mkframe [] [].

(** [df.empty]: some axis has length 0. *)
Definition empty (df : DataFrame) : bool :=
  match columns df, rows df with
  | [], _ => true
  | _, [] => true
  | _, _ => false
  end.

(** [c in df.columns] *)
Definition has_col (c : string) (df : DataFrame) : bool := Py.mem c (columns df).

(** The row read off a tuple of values laid out under [labels]. *)
Definition row_of (labels : list string) (vals : list value) : Row :=
  fun c =>
    match find (fun kv => String.eqb (fst kv) c) (combine labels vals) with
    | Some kv => snd kv
    | None => VNull
    end.


Definition upd (c : string) (v : value) (r : Row) : Row :=
  fun c' => if String.eqb c' c then v else r c'.

Definition add_col (c : string) (cols : list string) : list string :=
  if Py.mem c cols then cols else cols ++ [c].

(** [df[c] = f(df)] where the right-hand side is computed row by row: what
    it does to one row, and to the frame. *)
Definition assign_row (c : string) (f : Row -> value) (r : Row) : Row :=
  upd c (f r) r.

Definition assign (c : string) (f : Row -> value) (df : DataFrame) : DataFrame :=
  mkframe (add_col c (columns df)) (map (assign_row c f) (rows df)).

(** [df.columns = [f(c) for c in df.columns]]: the data stay in place, the
    labels change. *)
Definition relabel (f : string -> string) (df : DataFrame) : DataFrame :=
  mkframe (map f (columns df))
          (map (fun r c' =>
                  match find (fun c => String.eqb (f c) c') (columns df) with
                  | Some c => r c
                  | None => VNull
                  end) (rows df)).

(** [df[mask]] for a mask computed row by row. *)
Definition select (mask : Row -> bool) (df : DataFrame) : DataFrame :=
  mkframe (columns df) (filter mask (rows df)).

(** [.str.lower().str.strip().str.replace(' ', '_').str.replace('&', 'and')] *)
Definition normalize_label (c : string) : string :=
  Py.replace "&"%char "and" (Py.replace " "%char "_" (Py.strip (Py.lower c))).

(** [df.rename(columns={old: new})] *)
Definition rename (old new : string) (df : DataFrame) : DataFrame :=
  relabel (fun c => if String.eqb c old then new else c) df.

Definition expected_db_columns : list string :=
  [ "name"; "email"; "number"; "country_name"; "remarks"; "agent"; "first_call_date";
    "status"; "notes_from_call"; "post_call_email"; "tags"; "interested_category";
    "sales_status"; "sales_amount"; "next_follow_up_time"; "next_follow_up_date";
    "Calling_Stamp"; "Signup_Date" ].

(** ** The relational store and psycopg2 *)

Definition table := list (list value).

(** The database as far as the pipeline sees it: the contents of
    [sales_data], or [None] while the table does not exist. *)
Definition database := option table.

Inductive exn := PgError (* psycopg2.Error *) | OtherError (* any other Exception *).

(** The calls of [insert_data_to_postgres] that reach the server. *)
Inductive step :=
| Connect
| ExecCreate | CommitCreate
| ExecTruncate | CommitTruncate
| ExecInsert (k : nat)          (* the [k]-th INSERT of the batch *)
| CommitInsert.

(** Which calls fail, and how: the environment of one run. *)
Definition faults := step -> option exn.

Definition no_faults : faults := fun _ => None.

(** An open connection: what is committed, and what the open transaction
    sees. *)
Record conn := mkconn { committed : database; pending : database }.

(** How a run ended: it loaded the data, a call failed, or it exited
    before touching the store. *)
Inductive outcome := Done | Failed (s : step) (e : exn) | Exited.

(** State and exceptions of the [try] block. *)
Definition M (A : Type) : Type := conn -> conn * (A + step * exn).

Definition ret {A} (a : A) : M A := fun c => (c, inl a).

Definition bind {A B} (m : M A) (k : A -> M B) : M B :=
  fun c =>
    match m c with
    | (c', inl a) => k a c'
    | (c', inr e) => (c', inr e)
    end.

Notation "m ;; k" := (bind m (fun _ => k)) (at level 61, right associativity).

(** A statement: it raises when the environment says so, or when the server
    rejects it ([sql] has no result). *)
Definition execute (fl : faults) (s : step) (sql : database -> option database) : M unit :=
  fun c =>
    match fl s with
    | Some e => (c, inr (s, e))
    | None =>
        match sql (pending c) with
        | Some t => (mkconn (committed c) t, inl tt)
        | None => (c, inr (s, PgError))
        end
    end.

(** [conn.commit()] *)
Definition commit (fl : faults) (s : step) : M unit :=
  fun c =>
    match fl s with
    | Some e => (c, inr (s, e))
    | None => (mkconn (pending c) (pending c), inl tt)
    end.

(** [conn.rollback()] *)
Definition rollback (c : conn) : conn := mkconn (committed c) (committed c).

(** [conn.close()]: an open transaction is discarded. *)
Definition close (c : conn) : database := committed c.

(** [CREATE TABLE IF NOT EXISTS sales_data (...)] *)
Definition create_table_sql (t : database) : option database :=
  match t with
  | None => Some (Some [])
  | Some _ => Some t
  end.

(** [TRUNCATE TABLE sales_data RESTART IDENTITY CASCADE] *)
Definition truncate_sql (t : database) : option database :=
  match t with
  | None => None
  | Some _ => Some (Some [])
  end.

(** [INSERT INTO sales_data (...) VALUES (...)] *)
Definition insert_sql (tuple : list value) (t : database) : option database :=
  match t with
  | None => None
  | Some rs => Some (Some (rs ++ [tuple]))
  end.

(** [psycopg2.extras.execute_batch(cur, insert_sql, data)]: the statements
    run in order inside the open transaction; the first one that fails ends
    the batch. *)
Fixpoint execute_batch (fl : faults) (k : nat) (data : table) : M unit :=
  match data with
  | [] => ret tt
  | tuple :: data' =>
      execute fl (ExecInsert k) (insert_sql tuple) ;; execute_batch fl (S k) data'
  end.

(** The value sent for a cell: null and blank text go as SQL NULL. *)
Definition processed_value (v : value) : value :=
  match v with
  | VNull => VNull
  | VStr s => if String.eqb (Py.strip s) EmptyString then VNull else v
  | _ => v
  end.

(** [data_to_insert]: one tuple per row of the frame, in the order of
    [expected_cols]. *)
Definition data_to_insert (expected_cols : list string) (df : DataFrame) : table :=
  map (fun r => map (fun col => processed_value (r col)) expected_cols) (rows df).

(** The body of the [try] block, after the connection is open. *)
Definition insert_body (fl : faults) (expected_cols : list string) (df : DataFrame) : M unit :=
  execute fl ExecCreate create_table_sql ;;
  commit fl CommitCreate ;;
  execute fl ExecTruncate truncate_sql ;;
  commit fl CommitTruncate ;;
  execute_batch fl 0 (data_to_insert expected_cols df) ;;
  commit fl CommitInsert.

(** [insert_data_to_postgres(df, "sales_data", ..., expected_cols)]: the
    database it leaves behind and how the run ended.  A [psycopg2.Error] is
    answered by [conn.rollback()]; in every case [finally] closes the
    connection. *)
Definition insert_data_to_postgres
    (fl : faults) (df : DataFrame) (expected_cols : list string) (db : database)
  : database * outcome :=
  match fl Connect with
  | Some e => (db, Failed Connect e)
  | None =>
      let c := mkconn db db in
      match insert_body fl expected_cols df c with
      | (c', inl _) => (close c', Done)
      | (c', inr (s, PgError)) => (close (rollback c'), Failed s PgError)
      | (c', inr (s, OtherError)) => (close c', Failed s OtherError)
      end
  end.

(** ** The synchroniser and the loader *)

(** What [get_gspread_client] and the sheet hand to the synchroniser. *)
Record Worksheet := mksheet { header : list string; body : list (list value) }.

Inductive Source :=
| NoClient                 (* the client could not be initialised *)
| SpreadsheetNotFound
| WorksheetNotFound
| ApiError                 (* any other exception while reading *)
| Sheet (w : Worksheet).

(** [pd.DataFrame(worksheet.get_all_records())]: one record per data row,
    keyed by the header row; without a record the frame has no column. *)
Definition frame_of_records (w : Worksheet) : DataFrame :=
  match body w with
  | [] => empty_frame
  | _ => mkframe (header w) (map (row_of (header w)) (body w))
  end.

(** [df[c] = v] for a scalar [v]. *)
Definition assign_scalar (c : string) (v : value) (df : DataFrame) : DataFrame :=
  assign c (fun _ => v) df.

(** [df[c] = series]: a frame that has no row yet takes its rows from a
    non-empty series (the columns it already has are null there); otherwise
    frame and series are aligned row by row. *)
Fixpoint set_rows (c : string) (rs : list Row) (series : list value) : list Row :=
  match rs, series with
  | r :: rs', v :: series' => upd c v r :: set_rows c rs' series'
  | _, _ => []
  end.

Definition assign_series (c : string) (series : list value) (df : DataFrame) : DataFrame :=
  let base :=
    match rows df with
    | [] => map (fun _ => (fun _ => VNull) : Row) series
    | rs => rs
    end in
  mkframe (add_col c (columns df)) (set_rows c base series).

(** [df[c]] as a series. *)
Definition series (c : string) (df : DataFrame) : list value :=
  map (fun r => r c) (rows df).

(** The value a column missing from the sheet is given. *)
Definition missing_default (col : string) : value :=
  if String.eqb col "sales_amount" then VNum 0
  else if Py.contains "date" col then VNull
  else VStr EmptyString.

(** The loop that fills [df_reordered], started from
    [pd.DataFrame(columns=expected_db_columns)]. *)
Definition reorder_step (df : DataFrame) (acc : DataFrame) (col : string) : DataFrame :=
  if has_col col df then assign_series col (series col df) acc
  else assign_scalar col (missing_default col) acc.

Definition reorder (df : DataFrame) : DataFrame :=
  fold_left (reorder_step df) expected_db_columns (mkframe expected_db_columns []).

(** Rows let through to persistence: [email] is not null and not ['']. *)
Definition email_present (r : Row) : bool :=
  notna (r "email") && ne_str (r "email") EmptyString.

Definition date_cols_from_sheet : list string :=
  [ "first_call_date"; "next_follow_up_date" ].

(** The frame of the sheet under its normalised labels, with the two legacy
    labels renamed. *)
Definition labelled (w : Worksheet) : DataFrame :=
  let df := relabel normalize_label (frame_of_records w) in
  let df := if has_col "customer_name" df then rename "customer_name" "name" df else df in
  if has_col "agent_name" df then rename "agent_name" "agent" df else df.

(** ** Readers for the end-to-end scenario *)

Definition digit_of (c : ascii) : option Z :=
  let n := nat_of_ascii c in
  if ((48 <=? n) && (n <=? 57))%nat then Some (Z.of_nat (n - 48)) else None.

(** The number written by a non-empty string of decimal digits. *)
Fixpoint digits_from (acc : Z) (s : string) : option Z :=
  match s with
  | EmptyString => Some acc
  | String c s' =>
      match digit_of c with
      | Some d => digits_from (10 * acc + d) s'
      | None => None
      end
  end.

Definition digits (s : string) : option Z :=
  match s with
  | EmptyString => None
  | _ => digits_from 0 s
  end.

(** Whole decimal numbers, as [pd.to_numeric] reads them; any other text is
    left unread here. *)
Definition decimal_reader (s : string) : option Q :=
  option_map inject_Z (digits s).

Definition is_leap (y : Z) : bool :=
  ((y mod 4 =? 0) && (negb (y mod 100 =? 0) || (y mod 400 =? 0)))%Z.

Definition days_in_month (y m : Z) : Z :=
  if (m =? 2)%Z then (if is_leap y then 29 else 28)%Z
  else if ((m =? 4) || (m =? 6) || (m =? 9) || (m =? 11))%Z then 30%Z
  else 31%Z.

(** Dates written [YYYY-MM-DD], as [pd.to_datetime] reads them; any other
    value is left unread here. *)
Definition iso_date_reader (v : value) : option date :=
  match v with
  | VStr s =>
      if ((String.length s =? 10)%nat
          && String.eqb (String.substring 4 1 s) "-"
          && String.eqb (String.substring 7 1 s) "-")
      then
        match digits (String.substring 0 4 s),
              digits (String.substring 5 2 s),
              digits (String.substring 8 2 s) with
        | Some y, Some m, Some d =>
            if ((1 <=? y) && (1 <=? m) && (m <=? 12) && (1 <=? d) && (d <=? days_in_month y m))%Z
            then Some (mkdate y m d) else None
        | _, _, _ => None
        end
      else None
  | _ => None
  end.

(** ** The sidebar of the dashboard *)

Record FilterCriteria := mkfilter {
  agent_filter : string;
  country_filter : string;
  status_filter : string;
  start_date : date;
  end_date : date
}.

(** ** Scenarios *)

(** The sheet of the end-to-end scenario: two rows, the second without
    email. *)
Definition scenario_sheet : Worksheet :=
  mksheet [ "agent"; "status"; "sales_amount"; "first_call_date"; "email" ]
          [ [ VStr "A"; VStr "answered call"; VStr "$1,000"; VStr "2024-01-01"; VStr "a@x.com" ];
            [ VStr "A"; VStr "Lost"; VStr EmptyString; VStr EmptyString; VStr EmptyString ] ].

(** A sheet whose only row has no email. *)
Definition rejected_sheet : Worksheet :=
  mksheet [ "agent"; "email" ] [ [ VStr "A"; VStr EmptyString ] ].

(** In the scenarios [str] meets text and null only; what it gives on a
    number or a date plays no part. *)
Definition scenario_str : value -> string := fun _ => EmptyString.

(** A table of one record: called on 2024-01-01, follow-up on 2024-01-10. *)
Definition follow_up_table : table :=
  [ [ VStr "Ann"; VStr "ann@x.com"; VNull; VStr "India"; VNull; VStr "A";
      VDate (mkdate 2024 1 1); VStr "answered"; VNull; VNull; VNull; VNull; VNull;
      VNum 0; VNull; VDate (mkdate 2024 1 10); VNull; VNull ] ].

(** The day of the load, after the follow-up. *)
Definition load_day : date := mkdate 2024 1 15.

(** A filter on no agent, country or status, whose range ends before the
    follow-up. *)
Definition first_days : FilterCriteria :=
  mkfilter "All" "All" "All" (mkdate 2024 1 1) (mkdate 2024 1 5).

Section Pipeline.

(** [pd.to_datetime(v, errors='coerce')] on a value that is neither null nor
    a date already: the date read from it, if any. *)
Variable parse_datetime : value -> option date.

(** [pd.to_numeric(s, errors='coerce')] on text: the number read, if any. *)
Variable parse_numeric : string -> option Q.

(** Python's [str(v)] on numbers and dates. *)
Variable py_str : value -> string.

(** [series.astype(str)], element-wise. *)
Definition astype_str (v : value) : string :=
  match v with
  | VStr s => s
  | VNull => "None"
  | _ => py_str v
  end.

(** [pd.to_datetime(series, errors='coerce')], element-wise. *)
Definition to_datetime (v : value) : option date :=
  match v with
  | VNull => None
  | VDate d => Some d
  | _ => parse_datetime v
  end.

(** [pd.to_datetime(series, errors='coerce').dt.date], element-wise. *)
Definition to_date (v : value) : value :=
  match to_datetime v with
  | Some d => VDate d
  | None => VNull
  end.

(** [pd.to_numeric(series, errors='coerce')], element-wise. *)
Definition to_numeric (v : value) : value :=
  match v with
  | VInt z => VInt z
  | VNum q => VNum q
  | VStr s => match parse_numeric s with Some q => VNum q | None => VNull end
  | _ => VNull
  end.

(** [series.fillna(0)], element-wise. *)
Definition fillna0 (v : value) : value := if isna v then VNum 0 else v.

(** The [try] block of [fetch_data_from_gsheets] on the records of a sheet,
    up to the email filter. *)
Definition prepare (w : Worksheet) : DataFrame :=
  let df := labelled w in
  let df :=
    if has_col "sales_amount" df then
      let df := assign "sales_amount"
                  (fun r => VStr (Py.drop_dollar_comma (astype_str (r "sales_amount")))) df in
      assign "sales_amount" (fun r => fillna0 (to_numeric (r "sales_amount"))) df
    else df in
  fold_left (fun df col => if has_col col df then assign col (fun r => to_date (r col)) df else df)
            date_cols_from_sheet df.

(** The rest of the [try] block; [None] when it raises ([df['email']] on a
    frame without such a column). *)
Definition fetch_records (w : Worksheet) : option DataFrame :=
  let df := prepare w in
  if has_col "email" df then Some (reorder (select email_present df)) else None.

(** [fetch_data_from_gsheets(gc, spreadsheet_name, worksheet_name)] *)
Definition fetch_data_from_gsheets (src : Source) : DataFrame :=
  match src with
  | Sheet w =>
      match fetch_records w with
      | Some df => df
      | None => empty_frame
      end
  | _ => empty_frame
  end.

(** The script's [__main__]: the database after one run. *)
Definition main (fl : faults) (src : Source) (db : database) : database * outcome :=
  match src with
  | NoClient => (db, Exited)
  | _ =>
      let df_sheets := fetch_data_from_gsheets src in
      if empty df_sheets then (db, Exited)
      else insert_data_to_postgres fl df_sheets expected_db_columns db
  end.

(** *** The loader of the dashboard *)

Definition dict_get (d : list (string * string)) (k : string) : option string :=
  option_map snd (find (fun kv => String.eqb (fst kv) k) d).

Definition of_option (o : option string) : value :=
  match o with Some s => VStr s | None => VNull end.

Definition status_mapping : list (string * string) :=
  [ ("answered call", "Answered");
    ("answered", "Answered");
    ("not answered", "Not answered");
    ("invalid number", "Invalid number");
    ("silent call/voicemail", "Voicemail");
    ("voicemail", "Voicemail") ].

Definition sales_status_mapping : list (string * string) :=
  [ ("sold", "Converted");
    ("deal won", "Converted");
    ("deal complete", "Converted");
    ("converted", "Converted");
    ("lost", "Not interested");
    ("no interest", "Not interested");
    ("not interested (n)", "Not interested");
    ("not interested", "Not interested");
    ("follow up", "Follow up");
    ("f", "Follow up") ].

(** [series.replace({...})] on whole values. *)
Definition replace_values (d : list (string * string)) (s : string) : string :=
  match dict_get d s with Some s' => s' | None => s end.

(** [.astype(str).str.strip().str.lower()] *)
Definition lookup_key (v : value) : string := Py.lower (Py.strip (astype_str v)).

(** The [status] column: mapped through the dictionary (a missing key gives
    null), title-cased, then the two-word values put back. *)
Definition standard_status (v : value) : value :=
  of_option
    (option_map (replace_values [ ("Invalid Number", "Invalid number");
                                  ("Not Answered", "Not answered") ])
       (option_map Py.title (dict_get status_mapping (lookup_key v)))).

(** The [sales_status] column: mapped through the dictionary, title-cased. *)
Definition standard_sales_status (v : value) : value :=
  of_option (option_map Py.title (dict_get sales_status_mapping (lookup_key v))).

(** [series.str.extract('(a|b|...)', flags=re.IGNORECASE)] on one string:
    the leftmost match, the earliest alternative first. *)
Fixpoint match_at (alts : list string) (s : string) : option string :=
  match alts with
  | [] => None
  | a :: alts' =>
      if String.prefix (Py.lower a) (Py.lower s)
      then Some (String.substring 0 (String.length a) s)
      else match_at alts' s
  end.

Fixpoint search (alts : list string) (s : string) : option string :=
  match match_at alts s with
  | Some m => Some m
  | None =>
      match s with
      | EmptyString => None
      | String _ s' => search alts s'
      end
  end.

Definition str_extract (alts : list string) (v : value) : value :=
  match v with
  | VStr s => of_option (search alts s)
  | _ => VNull
  end.

Definition issue_catalog : list string :=
  [ "Language Barriers"; "KYC Issues & Complaints"; "Bonus or Promotions";
    "Network, Inaudible Conversation"; "Interested";
    "Spread, Leverage & Platform Concerns"; "Future Deposit";
    "Withdrawal complaint"; "Wrong number claim"; "Busy";
    "Geographical permission needed"; "VOIP restricted country";
    "Payment method issue"; "Platform Issue"; "Answered by Another Person";
    "Explorer"; "Partners Program" ].

Definition call_outcomes : list string :=
  [ "Answered"; "Not answered"; "Invalid number"; "Voicemail" ].

(** [series.isin([...])], element-wise. *)
Definition isin (v : value) (l : list string) : bool :=
  match v with VStr s => Py.mem s l | _ => false end.

(** The nested [np.where] that assigns [country_group]. *)
Definition country_group_where (country_name : value) : value :=
  if isin country_name [ "India"; "Pakistan"; "Bangladesh" ] then VStr "South Asia"
  else if isin country_name [ "Brazil"; "Argentina"; "Colombia" ] then VStr "Latin America"
  else if isin country_name [ "Iraq"; "Saudi Arabia"; "United Arab Emirates" ]
  then VStr "Middle East"
  else VStr "Other".

Definition follow_up_date_db_columns : list string := [ "next_follow_up_date" ].

(** [series.notna() & (series <= ref)], element-wise: a null compares
    false. *)
Definition due (ref : date) (v : value) : bool :=
  notna v && match v with VDate d => date_leb d ref | _ => false end.

(** [counter += flag] on an integer column. *)
Definition add_int (v : value) (z : Z) : value :=
  match v with VInt n => VInt (n + z) | _ => v end.

(** [.astype(str).replace('NaT', '').replace('nan', '').str.strip()] *)
Definition follow_up_time (v : value) : value :=
  VStr (Py.strip (replace_values [ ("nan", EmptyString) ]
                    (replace_values [ ("NaT", EmptyString) ] (astype_str v)))).

(** [load_full_sales_data_from_db(...)], run on the day [today]; the frame
    is empty when the table cannot be read. *)
Definition load_full_sales_data_from_db
    (today : date) (db : database) (expected_cols : list string) : DataFrame :=
  match db with
  | None => empty_frame
  | Some data =>
      let df_raw := mkframe expected_cols (map (row_of expected_cols) data) in
      let df_raw := relabel normalize_label df_raw in
      let df_raw :=
        if has_col "first_call_date" df_raw then
          let df_raw := assign "date_called" (fun r => to_date (r "first_call_date")) df_raw in
          assign "is_initial_call" (fun r => VInt (Z.b2z (notna (r "date_called")))) df_raw
        else
          assign_scalar "is_initial_call" (VInt 0) (assign_scalar "date_called" VNull df_raw) in
      let df_raw :=
        if has_col "sales_amount" df_raw
        then assign "sales_amount" (fun r => fillna0 (to_numeric (r "sales_amount"))) df_raw
        else assign_scalar "sales_amount" (VInt 0) df_raw in
      let df_raw :=
        fold_left (fun df col_name =>
                     if has_col col_name df
                     then assign col_name (fun r => to_date (r col_name)) df
                     else assign_scalar col_name VNull df)
                  [ "next_follow_up_date" ] df_raw in
      let df_raw :=
        if has_col "status" df_raw
        then assign "status" (fun r => standard_status (r "status")) df_raw
        else assign_scalar "status" (VStr "nan") df_raw in
      let df_raw :=
        if has_col "sales_status" df_raw
        then assign "sales_status" (fun r => standard_sales_status (r "sales_status")) df_raw
        else assign_scalar "sales_status" (VStr "nan") df_raw in
      let df_raw :=
        if has_col "tags" df_raw
        then assign "issues"
               (fun r => match str_extract issue_catalog (r "tags") with
                         | VNull => VStr "N/A"
                         | v => v
                         end) df_raw
        else assign_scalar "issues" (VStr "N/A") df_raw in
      let df_raw :=
        assign "call_outcome" (fun r => str_extract call_outcomes (r "status")) df_raw in
      let df_raw :=
        if has_col "country_name" df_raw then df_raw
        else assign_scalar "country_name" (VStr "Unknown") df_raw in
      let df_raw :=
        assign "country_group" (fun r => country_group_where (r "country_name")) df_raw in
      let df_raw := assign_scalar "total_follow_up_calls" (VInt 0) df_raw in
      let df_raw :=
        fold_left (fun df col_name =>
                     if has_col col_name df then
                       let df := assign col_name (fun r => to_date (r col_name)) df in
                       assign "total_follow_up_calls"
                         (fun r => add_int (r "total_follow_up_calls")
                                           (Z.b2z (due today (r col_name)))) df
                     else df)
                  follow_up_date_db_columns df_raw in
      let df_raw :=
        if has_col "next_follow_up_date" df_raw
        then assign "next_follow_up_date" (fun r => to_date (r "next_follow_up_date")) df_raw
        else assign_scalar "next_follow_up_date" VNull df_raw in
      let df_raw :=
        if has_col "next_follow_up_time" df_raw
        then assign "next_follow_up_time" (fun r => follow_up_time (r "next_follow_up_time")) df_raw
        else assign_scalar "next_follow_up_time" (VStr EmptyString) df_raw in
      let df_raw :=
        if has_col "email" df_raw then df_raw
        else assign_scalar "email" (VStr EmptyString) df_raw in
      if has_col "agent" df_raw then df_raw else assign_scalar "agent" (VStr "Unknown") df_raw
  end.

(** *** The dashboard: sidebar filter and follow-up counters *)

(** [start <= series.dt.date <= end], element-wise: a null compares false. *)
Definition in_range (fc : FilterCriteria) (v : value) : bool :=
  match v with
  | VDate d => date_leb (start_date fc) d && date_leb d (end_date fc)
  | _ => false
  end.

Definition by_agent (a : string) (df : DataFrame) : DataFrame :=
  if negb (String.eqb a "All") then select (fun r => eq_str (r "agent") a) df else df.

Definition by_country (c : string) (df : DataFrame) : DataFrame :=
  if negb (String.eqb c "All") then select (fun r => eq_str (r "country_name") c) df else df.

Definition by_status (s : string) (df : DataFrame) : DataFrame :=
  if negb (String.eqb s "All") then select (fun r => eq_str (r "status") s) df else df.

(** The date mask.  The helper column [date_called_dt], added before the
    mask and dropped after it, is not represented. *)
Definition by_date (fc : FilterCriteria) (df : DataFrame) : DataFrame :=
  if has_col "date_called" df
  then select (fun r => in_range fc (to_date (r "date_called"))) df
  else mkframe (columns df) [].

(** [filtered_df], computed from [current_user_df] and the sidebar. *)
Definition filtered_df (fc : FilterCriteria) (current_user_df : DataFrame) : DataFrame :=
  by_date fc
    (by_status (status_filter fc)
       (by_country (country_filter fc)
          (by_agent (agent_filter fc) current_user_df))).

(** [series.sum()] of an integer column. *)
Definition as_int (v : value) : Z :=
  match v with VInt z => z | _ => 0%Z end.

Definition col_sum (c : string) (df : DataFrame) : Z :=
  fold_right Z.add 0%Z (map (fun r => as_int (r c)) (rows df)).

Definition follow_up_date_cols_for_counting : list string := [ "next_follow_up_date" ].

(** [total_follow_up_calls_overall]: recomputed on the filtered frame
    against [filter_end_date = end_date]. *)
Definition total_follow_up_calls_overall (fc : FilterCriteria) (fdf : DataFrame) : Z :=
  fold_left (fun total col_name =>
               if has_col col_name fdf
               then (total + fold_right Z.add 0
                               (map (fun r => Z.b2z (due (end_date fc) (r col_name)))
                                    (rows fdf)))%Z
               else total)
            follow_up_date_cols_for_counting 0%Z.

(** [total_follow_up_calls_agent] of the agent tab:
    [filtered_df[filtered_df['agent'] == selected_agent]['total_follow_up_calls'].sum()]. *)
Definition total_follow_up_calls_agent (selected_agent : string) (fdf : DataFrame) : Z :=
  col_sum "total_follow_up_calls" (select (fun r => eq_str (r "agent") selected_agent) fdf).

(** [total_follow_up_calls_report] of the report tab. *)
Definition total_follow_up_calls_report (fdf : DataFrame) : Z :=
  col_sum "total_follow_up_calls" fdf.

(** ** Notions used by the properties *)


(** While [df_reordered] is filled from [df], it has no row yet or one row
    per row of [df]. *)
Definition aligned (df acc : DataFrame) : Prop :=
  rows acc = [] \/ length (rows acc) = length (rows df).

(** Column [c] of [acc] holds, row by row, what [df] holds. *)
Definition copied (df : DataFrame) (c : string) (acc : DataFrame) : Prop :=
  Forall2 (fun r0 r => r c = r0 c) (rows df) (rows acc).

(** [email] is null or ['']: the rows the gate rejects. *)
Definition email_blank (v : value) : bool := isna v || eq_str v EmptyString.

(** The source rows the gate rejects, counted on the sheet. *)
Definition rejected_count (w : Worksheet) : nat :=
  length (filter email_blank (series "email" (labelled w))).


(** [SELECT * FROM sales_data] after a run. *)
Definition select_all (db : database) : table :=
  match db with Some t => t | None => [] end.

(** A source from which no row is accepted: it cannot be read, the sheet has
    no [email] column, or the gate rejects every row. *)
Definition no_accepted_row (src : Source) : Prop :=
  match src with
  | Sheet w => has_col "email" (labelled w) = false \/ rejected_count w = length (body w)
  | _ => True
  end.

(** *** The loader, row by row *)

Definition pipe {A} (x : A) (steps : list (A -> A)) : A :=
  fold_left (fun a step => step a) steps x.

(** A tuple of the table as a row of [df_raw], under the normalised
    labels. *)
Definition stored_row (t : list value) : Row :=
  fun c' =>
    match find (fun c => String.eqb (normalize_label c) c') expected_db_columns with
    | Some c => row_of expected_db_columns t c
    | None => VNull
    end.

(** The assignments of the loader on a frame that has the expected columns,
    as they act on one row. *)
Definition load_steps (today : date) : list (Row -> Row) :=
    [ assign_row "date_called" (fun r => to_date (r "first_call_date"));
      assign_row "is_initial_call" (fun r => VInt (Z.b2z (notna (r "date_called"))));
      assign_row "sales_amount" (fun r => fillna0 (to_numeric (r "sales_amount")));
      assign_row "next_follow_up_date" (fun r => to_date (r "next_follow_up_date"));
      assign_row "status" (fun r => standard_status (r "status"));
      assign_row "sales_status" (fun r => standard_sales_status (r "sales_status"));
      assign_row "issues"
        (fun r => match str_extract issue_catalog (r "tags") with
                  | VNull => VStr "N/A"
                  | v => v
                  end);
      assign_row "call_outcome" (fun r => str_extract call_outcomes (r "status"));
      assign_row "country_group" (fun r => country_group_where (r "country_name"));
      assign_row "total_follow_up_calls" (fun _ => VInt 0);
      assign_row "next_follow_up_date" (fun r => to_date (r "next_follow_up_date"));
      assign_row "total_follow_up_calls"
        (fun r => add_int (r "total_follow_up_calls")
                          (Z.b2z (due today (r "next_follow_up_date"))));
      assign_row "next_follow_up_date" (fun r => to_date (r "next_follow_up_date"));
      assign_row "next_follow_up_time" (fun r => follow_up_time (r "next_follow_up_time")) ].

Definition load_row (today : date) (r : Row) : Row := pipe r (load_steps today).

(** The number of configured follow-up-date fields of a row that are not
    null and not after the reference date. *)
Definition follow_ups_due (ref : date) (r : Row) : Z :=
  Z.of_nat (length (filter (fun col => due ref (r col)) follow_up_date_db_columns)).

(** The sum of a quantity over the rows of a frame. *)
Definition total (f : Row -> Z) (rs : list Row) : Z :=
  fold_right Z.add 0%Z (map f rs).



(** The display form of a mapped status. *)
Definition status_display (mapped : string) : string :=
  if String.eqb mapped "Not answered" then "Not answered"
  else if String.eqb mapped "Invalid number" then "Invalid number"
  else Py.title mapped.

(** The conjunction of the active predicates of the sidebar. *)
Definition matches (fc : FilterCriteria) (r : Row) : bool :=
  (String.eqb (agent_filter fc) "All" || eq_str (r "agent") (agent_filter fc))
  && (String.eqb (country_filter fc) "All" || eq_str (r "country_name") (country_filter fc))
  && (String.eqb (status_filter fc) "All" || eq_str (r "status") (status_filter fc))
  && in_range fc (to_date (r "date_called")).

(** *** The dashboard: totals, groups and the follow-up tab *)

(** [d1 < d2] on [datetime.date]. *)
Definition date_ltb (d1 d2 : date) : bool :=
  (year d1 <? year d2)%Z
  || ((year d1 =? year d2)%Z
      && ((month d1 <? month d2)%Z
          || ((month d1 =? month d2)%Z && (day d1 <? day d2)%Z))).

(** [filtered_df['is_initial_call'].sum()] *)
Definition total_initial_calls (fdf : DataFrame) : Z := col_sum "is_initial_call" fdf.

(** [len(filtered_df)] *)
Definition total_entries (fdf : DataFrame) : Z := Z.of_nat (length (rows fdf)).

(** [(series == s).sum()] *)
Definition count_eq (c s : string) (rs : list Row) : Z :=
  Z.of_nat (length (filter (fun r => eq_str (r c) s) rs)).

(** [(filtered_df['status'] == 'Answered').sum()] *)
Definition total_answered_calls (fdf : DataFrame) : Z :=
  count_eq "status" "Answered" (rows fdf).

(** [(series == s).mean() * 100]; the mean of an empty series is not a
    number. *)
Definition pct_eq (c s : string) (rs : list Row) : option Q :=
  match rs with
  | [] => None
  | _ :: rs' => Some (Qmake (100 * count_eq c s rs) (Pos.of_succ_nat (length rs')))
  end.

(** The group of a key in [filtered_df.groupby(by)]: the records whose
    [by] is the key. *)
Definition group (by_ key : string) (fdf : DataFrame) : list Row :=
  filter (fun r => eq_str (r by_) key) (rows fdf).

(** One row of [agent_stats] and of [country_stats]: the aggregates of the
    group of a key.  The sales aggregates ([Total_Sales], [Avg_Sale]) and the
    order of the rows of these tables are not represented. *)
Record GroupStats := mkstats {
  Total_Initial_Calls : Z;
  Total_Follow_Up_Calls : Z;
  Total_Answered_Calls : Z;
  Answered_Rate : option Q;
  Sales_Follow_Up_Rate : option Q
}.

Definition group_stats (by_ key : string) (fdf : DataFrame) : GroupStats :=
  let g := group by_ key fdf in
  mkstats (fold_right Z.add 0%Z (map (fun r => as_int (r "is_initial_call")) g))
          (fold_right Z.add 0%Z (map (fun r => as_int (r "total_follow_up_calls")) g))
          (count_eq "status" "Answered" g)
          (pct_eq "status" "Answered" g)
          (pct_eq "sales_status" "Follow up" g).

(** [series.value_counts().reindex(labels, fill_value=0)] *)
Definition value_counts_reindex (c : string) (labels : list string) (rs : list Row)
  : list (string * Z) :=
  map (fun l => (l, count_eq c l rs)) labels.

(** [sales_dist] of the agent tab. *)
Definition sales_dist (selected_agent : string) (fdf : DataFrame) : list (string * Z) :=
  value_counts_reindex "sales_status" [ "Follow up"; "Not interested"; "Converted" ]
    (group "agent" selected_agent fdf).

(** [series.notna() & (series > ref)], element-wise. *)
Definition after (ref : date) (v : value) : bool :=
  notna v && match v with VDate d => date_ltb ref d | _ => false end.

(** [upcoming_scheduled_df] of the follow-up tab, with
    [analysis_reference_date = end_date]; [None] when the frame has no
    [next_follow_up_date] column ([KeyError]).  The column holds dates and
    nulls. *)
Definition upcoming_scheduled_df (fc : FilterCriteria) (fdf : DataFrame) : option DataFrame :=
  if has_col "next_follow_up_date" fdf
  then Some (select (fun r => after (end_date fc) (r "next_follow_up_date")) fdf)
  else None.

Definition historical_call_date_cols_map : list (string * string) :=
  [ ("next_follow_up_date", "Next Follow-Up Call Completed") ].

Record CallEvent := mkevent {
  event_of : Row;            (* the record the common columns are taken from *)
  follow_up_date : value;
  call_stage : string
}.

(** [completed_events]: for every record and every historical column that
    the record has and that is not null, one event when the date is not
    after [end_date].  The column holds dates and nulls. *)
Definition completed_events (fc : FilterCriteria) (fdf : DataFrame) : list CallEvent :=
  flat_map
    (fun row =>
       flat_map
         (fun kv =>
            if has_col (fst kv) fdf && notna (row (fst kv)) then
              match row (fst kv) with
              | VDate call_date =>
                  if date_leb call_date (end_date fc)
                  then [ mkevent row (row (fst kv)) (snd kv) ]
                  else []
              | _ => []
              end
            else [])
         historical_call_date_cols_map)
    (rows fdf).

(** *** The dashboard: the extent of the data and the date inputs *)

(** The dates of a column, nulls skipped. *)
Definition dates_of (c : string) (df : DataFrame) : list date :=
  flat_map (fun r => match r c with VDate d => [d] | _ => [] end) (rows df).

(** [series.min()] and [series.max()] on dates. *)
Definition date_min (d1 d2 : date) : date := if date_leb d1 d2 then d1 else d2.
Definition date_max (d1 d2 : date) : date := if date_leb d1 d2 then d2 else d1.

(** [data_min_date, data_max_date]: the extent of [date_called], or
    2023-01-01 and the current day when no record has one. *)
Definition data_extent (today : date) (current_user_df : DataFrame) : date * date :=
  if negb (empty current_user_df) && has_col "date_called" current_user_df then
    match dates_of "date_called" current_user_df with
    | [] => (mkdate 2023 1 1, today)
    | d :: ds => (fold_left date_min ds d, fold_left date_max ds d)
    end
  else (mkdate 2023 1 1, today).

(** The filter of a fresh session: nothing selected, the whole extent. *)
Definition initial_filter (today : date) (current_user_df : DataFrame) : FilterCriteria :=
  mkfilter "All" "All" "All"
           (fst (data_extent today current_user_df))
           (snd (data_extent today current_user_df)).

(** [update_start_date()]: the date input is taken over, and [end_date]
    follows when it would fall before it. *)
Definition update_start_date (start_date_input : date) (fc : FilterCriteria) : FilterCriteria :=
  let fc := mkfilter (agent_filter fc) (country_filter fc) (status_filter fc)
                     start_date_input (end_date fc) in
  if date_ltb (end_date fc) (start_date fc)
  then mkfilter (agent_filter fc) (country_filter fc) (status_filter fc)
                (start_date fc) (start_date fc)
  else fc.

(** [update_end_date()] *)
Definition update_end_date (end_date_input : date) (fc : FilterCriteria) : FilterCriteria :=
  let fc := mkfilter (agent_filter fc) (country_filter fc) (status_filter fc)
                     (start_date fc) end_date_input in
  if date_ltb (end_date fc) (start_date fc)
  then mkfilter (agent_filter fc) (country_filter fc) (status_filter fc)
                (end_date fc) (end_date fc)
  else fc.

(** *** The webhook *)







(** *** The synchroniser, row by row *)

(** The amount read from a cell of the sheet: the number written once [$]
    and [,] are dropped, 0 when there is none. *)
Definition amount_of (v : value) : Q :=
  match parse_numeric (Py.drop_dollar_comma (astype_str v)) with
  | Some q => q
  | None => 0%Q
  end.

(** What [prepare] does to one row of the labelled frame [df]. *)
Definition prepared_row (df : DataFrame) (r : Row) : Row :=
  let r :=
    if has_col "sales_amount" df then
      assign_row "sales_amount" (fun r => fillna0 (to_numeric (r "sales_amount")))
        (assign_row "sales_amount"
           (fun r => VStr (Py.drop_dollar_comma (astype_str (r "sales_amount")))) r)
    else r in
  let r :=
    if has_col "first_call_date" df
    then assign_row "first_call_date" (fun r => to_date (r "first_call_date")) r
    else r in
  if has_col "next_follow_up_date" df
  then assign_row "next_follow_up_date" (fun r => to_date (r "next_follow_up_date")) r
  else r.

(** Column [c] of [acc] holds the default of a missing column. *)
Definition defaulted (c : string) (acc : DataFrame) : Prop :=
  Forall (fun r => r c = missing_default c) (rows acc).

(** Text that is not empty and is whitespace only. *)
Definition whitespace_only (v : value) : Prop :=
  exists s, v = VStr s /\ s <> EmptyString /\ Py.strip s = EmptyString.

(** The text has an upper-case letter. *)
Fixpoint has_upper (s : string) : bool :=
  match s with
  | EmptyString => false
  | String c s' => Py.is_upper c || has_upper s'
  end.
(** * Properties *)

(** ** The store protocol *)
(** ** The store protocol *)

Lemma execute_batch_no_faults (data : table) :
  forall k c t,
    pending c = Some t ->
    execute_batch no_faults k data c = (mkconn (committed c) (Some (t ++ data)), inl tt).
Proof.
  induction data as [|tuple data IH]; intros k [cm pd] t Hp; simpl in *; subst pd.
  - unfold ret. now rewrite app_nil_r.
  - unfold bind, execute. simpl.
    rewrite (IH (S k) (mkconn cm (Some (t ++ [tuple]))) (t ++ [tuple]) eq_refl).
    simpl. now rewrite <- app_assoc.
Qed.


Lemma insert_no_faults (df : DataFrame) (cols : list string) (db : database) :
  insert_data_to_postgres no_faults df cols db = (Some (data_to_insert cols df), Done).
Proof.
  unfold insert_data_to_postgres, insert_body, bind, execute, commit. simpl.
  destruct db as [t|]; simpl;
    rewrite (execute_batch_no_faults _ 0 (mkconn (Some []) (Some [])) [] eq_refl);
    reflexivity.
Qed.


(** ** The synchroniser *)

Lemma filter_partition_length {A} (p : A -> bool) (l : list A) :
  length (filter p l) + length (filter (fun x => negb (p x)) l) = length l.
Proof.
  induction l as [|a l IH]; simpl; [reflexivity|].
  destruct (p a); simpl; lia.
Qed.

Lemma set_rows_length (c : string) (rs : list Row) :
  forall vs, length rs = length vs -> length (set_rows c rs vs) = length vs.
Proof.
  induction rs as [|r rs IH]; intros [|v vs] H; simpl in *; try discriminate; auto.
Qed.

Lemma rows_assign_series_length (c : string) (vs : list value) (acc : DataFrame) :
  rows acc = [] \/ length (rows acc) = length vs ->
  length (rows (assign_series c vs acc)) = length vs.
Proof.
  unfold assign_series. simpl. intros H.
  apply set_rows_length.
  destruct (rows acc) as [|r rs] eqn:E.
  - now rewrite length_map.
  - destruct H as [H|H]; [discriminate|exact H].
Qed.

Section Reorder.

Variable df : DataFrame.

Lemma reorder_step_aligned (acc : DataFrame) (col : string) :
  aligned df acc -> aligned df (reorder_step df acc col).
Proof.
  unfold aligned, reorder_step. intros H.
  destruct (has_col col df).
  - right. rewrite rows_assign_series_length; unfold series; rewrite length_map; auto.
  - unfold assign_scalar, assign, assign_row. simpl.
    destruct H as [H|H]; [left; now rewrite H|right; now rewrite length_map].
Qed.

Lemma reorder_step_full (acc : DataFrame) (col : string) :
  length (rows acc) = length (rows df) ->
  length (rows (reorder_step df acc col)) = length (rows df).
Proof.
  unfold reorder_step. intros H.
  destruct (has_col col df).
  - rewrite rows_assign_series_length; unfold series; rewrite length_map; auto.
  - unfold assign_scalar, assign, assign_row. simpl. now rewrite length_map.
Qed.

Lemma fold_reorder_full (cols : list string) :
  forall acc,
    length (rows acc) = length (rows df) ->
    length (rows (fold_left (reorder_step df) cols acc)) = length (rows df).
Proof.
  induction cols as [|col cols IH]; intros acc H; simpl; [exact H|].
  apply IH, reorder_step_full, H.
Qed.

Lemma fold_reorder_length (cols : list string) :
  forall acc,
    aligned df acc ->
    (exists col, In col cols /\ has_col col df = true) ->
    length (rows (fold_left (reorder_step df) cols acc)) = length (rows df).
Proof.
  induction cols as [|col cols IH]; intros acc Ha [c [Hin Hc]]; simpl in *; [contradiction|].
  destruct (has_col col df) eqn:E.
  - apply fold_reorder_full. unfold reorder_step. rewrite E.
    rewrite rows_assign_series_length; unfold series; rewrite length_map; auto.
  - destruct Hin as [->|Hin]; [congruence|].
    apply IH; [now apply reorder_step_aligned|eauto].
Qed.

(** Every row that passed the gate gives one row of [df_reordered]. *)
Lemma reorder_length :
  has_col "email" df = true -> length (rows (reorder df)) = length (rows df).
Proof.
  intros H. unfold reorder. apply fold_reorder_length.
  - now left.
  - exists "email". split; [simpl; tauto|exact H].
Qed.

Lemma fold_reorder_columns (cols : list string) :
  forall acc,
    (forall c, In c cols -> Py.mem c (columns acc) = true) ->
    columns (fold_left (reorder_step df) cols acc) = columns acc.
Proof.
  induction cols as [|col cols IH]; intros acc H; simpl; [reflexivity|].
  assert (E : columns (reorder_step df acc col) = columns acc).
  { unfold reorder_step, assign_series, assign_scalar, assign, add_col.
    destruct (has_col col df); simpl; rewrite (H col (or_introl eq_refl)); reflexivity. }
  rewrite IH; [exact E|].
  intros c Hc. rewrite E. apply H. now right.
Qed.

Lemma reorder_columns : columns (reorder df) = expected_db_columns.
Proof.
  unfold reorder. rewrite fold_reorder_columns; [reflexivity|].
  intros c Hc. simpl in Hc.
  repeat (destruct Hc as [<-|Hc]; [reflexivity|]). contradiction.
Qed.

End Reorder.

Lemma reorder_empty (df : DataFrame) : rows df = [] -> rows (reorder df) = [].
Proof.
  intros H. apply length_zero_iff_nil.
  assert (Ha : aligned df (mkframe expected_db_columns [])) by now left.
  unfold reorder.
  generalize dependent (mkframe expected_db_columns []).
  induction expected_db_columns as [|col cols IH]; intros acc Ha; simpl.
  - destruct Ha as [-> | Ha]; [reflexivity|]. now rewrite Ha, H.
  - apply IH. now apply reorder_step_aligned.
Qed.

Lemma set_rows_establish (c : string) (R : list Row) :
  forall rs,
    length rs = length R ->
    Forall2 (fun r0 r => r c = r0 c) R (set_rows c rs (map (fun r => r c) R)).
Proof.
  induction R as [|r0 R IH]; intros [|r rs] H; simpl in *; try discriminate; constructor.
  - unfold upd. now rewrite String.eqb_refl.
  - apply IH. lia.
Qed.

Lemma set_rows_preserve (c col : string) (R rs : list Row) :
  Forall2 (fun r0 r => r c = r0 c) R rs ->
  Forall2 (fun r0 r => r c = r0 c) R (set_rows col rs (map (fun r => r col) R)).
Proof.
  induction 1 as [|r0 r R rs Hr _ IH]; simpl; constructor; [|exact IH].
  unfold upd. destruct (String.eqb_spec c col) as [->|_]; [reflexivity|exact Hr].
Qed.

Section ReorderCells.

Variables (df : DataFrame) (c : string).
Hypothesis c_present : has_col c df = true.

Lemma reorder_step_copies (acc : DataFrame) :
  aligned df acc -> copied df c (reorder_step df acc c).
Proof.
  unfold copied, reorder_step, aligned. rewrite c_present. intros Ha.
  unfold assign_series, series. simpl.
  apply set_rows_establish.
  destruct (rows acc) as [|r rs].
  - now rewrite !length_map.
  - destruct Ha as [Ha|Ha]; [discriminate|exact Ha].
Qed.

Lemma reorder_step_keeps (acc : DataFrame) (col : string) :
  copied df c acc -> copied df c (reorder_step df acc col).
Proof.
  unfold copied, reorder_step. intros H.
  destruct (has_col col df) eqn:E.
  - unfold assign_series, series. simpl.
    destruct (rows acc) as [|r rs] eqn:Er.
    + inversion H as [E0|]. constructor.
    + now apply set_rows_preserve.
  - unfold assign_scalar, assign, assign_row. simpl.
    assert (Hne : String.eqb c col = false).
    { destruct (String.eqb_spec c col) as [->|]; [congruence|reflexivity]. }
    induction H as [|r0 r R rs Hr _ IH]; simpl; constructor; [|exact IH].
    unfold upd. now rewrite Hne.
Qed.

Lemma fold_reorder_keeps (cols : list string) :
  forall acc, copied df c acc -> copied df c (fold_left (reorder_step df) cols acc).
Proof.
  induction cols as [|col cols IH]; intros acc H; simpl; [exact H|].
  apply IH, reorder_step_keeps, H.
Qed.

Lemma fold_reorder_copies (cols : list string) :
  forall acc,
    aligned df acc -> In c cols -> copied df c (fold_left (reorder_step df) cols acc).
Proof.
  induction cols as [|col cols IH]; intros acc Ha Hin; simpl in *; [contradiction|].
  destruct (String.eqb_spec col c) as [->|Hne].
  - apply fold_reorder_keeps, reorder_step_copies, Ha.
  - destruct Hin as [Heq|Hin]; [congruence|].
    apply IH; [now apply reorder_step_aligned|exact Hin].
Qed.

Lemma reorder_copies : In c expected_db_columns -> copied df c (reorder df).
Proof.
  intros Hin. unfold reorder. apply fold_reorder_copies; [now left|exact Hin].
Qed.

End ReorderCells.

Lemma row_of_tuple (f : string -> value) (cols : list string) (c : string) :
  In c cols -> row_of cols (map f cols) c = f c.
Proof.
  unfold row_of. induction cols as [|col cols IH]; intros Hin; simpl in *; [contradiction|].
  destruct (String.eqb_spec col c) as [->|Hne]; [reflexivity|].
  destruct Hin as [Heq|Hin]; [congruence|]. now apply IH.
Qed.

Lemma filter_map_length {A B} (g : A -> B) (q : B -> bool) (l : list A) :
  length (filter (fun x => q (g x)) l) = length (filter q (map g l)).
Proof.
  induction l as [|a l IH]; simpl; [reflexivity|].
  destruct (q (g a)); simpl; now rewrite IH.
Qed.

Lemma rows_labelled_length (w : Worksheet) :
  length (rows (labelled w)) = length (body w).
Proof.
  unfold labelled, rename, frame_of_records.
  destruct (body w) as [|vals b]; simpl.
  - reflexivity.
  - repeat match goal with
           | |- context [if ?b then _ else _] => destruct b
           end; simpl; now rewrite ?length_map.
Qed.

Lemma has_col_assign (c : string) (f : Row -> value) (df : DataFrame) :
  has_col c df = true -> columns (assign c f df) = columns df.
Proof.
  unfold has_col, assign, add_col. simpl. now intros ->.
Qed.

Lemma columns_guarded_assign (c : string) (f : Row -> value) (df : DataFrame) :
  columns (if has_col c df then assign c f df else df) = columns df.
Proof.
  destruct (has_col c df) eqn:E; [now apply has_col_assign|reflexivity].
Qed.

(** The value transforms of [prepare] keep the labels of the frame. *)
Lemma prepare_columns (w : Worksheet) : columns (prepare w) = columns (labelled w).
Proof.
  unfold prepare, date_cols_from_sheet. simpl.
  rewrite !columns_guarded_assign.
  destruct (has_col "sales_amount" (labelled w)) eqn:E; [|reflexivity].
  rewrite has_col_assign; [now apply has_col_assign|].
  unfold has_col. now rewrite has_col_assign.
Qed.

(** They leave the [email] column as the sheet has it. *)
Lemma prepare_email (w : Worksheet) :
  series "email" (prepare w) = series "email" (labelled w).
Proof.
  unfold prepare, date_cols_from_sheet, series. simpl.
  repeat match goal with
         | |- context [if ?b then _ else _] => destruct b
         end;
    unfold assign, assign_row; simpl; rewrite ?map_map; reflexivity.
Qed.

Lemma prepare_length (w : Worksheet) : length (rows (prepare w)) = length (body w).
Proof.
  rewrite <- rows_labelled_length.
  transitivity (length (series "email" (prepare w))).
  - unfold series. now rewrite length_map.
  - rewrite prepare_email. unfold series. now rewrite length_map.
Qed.

Lemma email_present_blank (r : Row) :
  email_present r = negb (email_blank (r "email")).
Proof.
  unfold email_present, email_blank, notna, ne_str.
  destruct (isna (r "email")), (eq_str (r "email") EmptyString); reflexivity.
Qed.

(** The gate accepts a row exactly when its [email] is not blank: of the [N]
    rows of the sheet, the [M] blank ones are dropped. *)
Lemma accepted_length (w : Worksheet) :
  length (filter email_present (rows (prepare w))) = length (body w) - rejected_count w.
Proof.
  unfold rejected_count.
  rewrite <- prepare_email, <- prepare_length.
  unfold series.
  rewrite <- (filter_map_length (fun r : Row => r "email") email_blank).
  rewrite <- (filter_partition_length (fun r : Row => email_blank (r "email")) (rows (prepare w))).
  rewrite (filter_ext email_present (fun r => negb (email_blank (r "email"))) email_present_blank).
  lia.
Qed.

Lemma empty_no_rows (df : DataFrame) : rows df = [] -> empty df = true.
Proof.
  unfold empty. intros ->. now destruct (columns df).
Qed.

Lemma empty_reorder (df : DataFrame) :
  has_col "email" df = true -> rows df <> [] -> empty (reorder df) = false.
Proof.
  intros He Hr. unfold empty. rewrite reorder_columns. simpl.
  pose proof (reorder_length df He) as Hl.
  destruct (rows (reorder df)); [|reflexivity].
  destruct (rows df); [contradiction|discriminate].
Qed.

Lemma has_email_prepare (w : Worksheet) :
  has_col "email" (prepare w) = has_col "email" (labelled w).
Proof.
  unfold has_col. now rewrite prepare_columns.
Qed.

(** C10. When no row is accepted (the source cannot be read, the sheet has
    no [email] column, or every row is rejected at the gate) the script exits
    before it opens the database: whatever the environment, the table is
    left as it was.  Loading an empty record set is something else: it
    leaves the table truncated. *)
Theorem no_accepted_row_no_mutation (src : Source) :
  no_accepted_row src ->
  (forall fl db, main fl src db = (db, Exited)) /\
  (forall df t, rows df = [] ->
     insert_data_to_postgres no_faults df expected_db_columns (Some t) = (Some [], Done)).
Proof.
  intros H. split.
  - intros fl db. destruct src as [ | | | |w]; try reflexivity.
    unfold main, fetch_data_from_gsheets, fetch_records.
    rewrite has_email_prepare.
    destruct H as [H|H].
    + now rewrite H.
    + destruct (has_col "email" (labelled w)); [|reflexivity].
      rewrite empty_no_rows; [reflexivity|].
      apply reorder_empty. simpl.
      apply length_zero_iff_nil. rewrite accepted_length, H. lia.
  - intros df t Hr. rewrite insert_no_faults. unfold data_to_insert. now rewrite Hr.
Qed.

Lemma main_accepted (w : Worksheet) (fl : faults) (db : database) :
  has_col "email" (labelled w) = true ->
  rejected_count w < length (body w) ->
  main fl (Sheet w) db =
  insert_data_to_postgres fl (fetch_data_from_gsheets (Sheet w)) expected_db_columns db.
Proof.
  intros He Hlt. unfold main, fetch_data_from_gsheets, fetch_records.
  rewrite has_email_prepare, He.
  rewrite empty_reorder; [reflexivity|unfold has_col in *; simpl; now rewrite prepare_columns|].
  simpl. intros Hnil. apply (f_equal (@length Row)) in Hnil.
  rewrite accepted_length in Hnil. simpl in Hnil. lia.
Qed.


(** C6. A second run on the same source, both runs without failure, leaves
    the table exactly as the first run left it: same tuples, same order. *)
Theorem sync_idempotent (src : Source) (db : database) :
  fst (main no_faults src (fst (main no_faults src db))) = fst (main no_faults src db).
Proof.
  unfold main. destruct src; try reflexivity.
  destruct (empty (fetch_data_from_gsheets (Sheet w))); [reflexivity|].
  now rewrite !insert_no_faults.
Qed.

(** ** The loader *)

Lemma pipe_map {A} (steps : list (A -> A)) :
  forall l : list A, pipe l (map (@map A A) steps) = map (fun x => pipe x steps) l.
Proof.
  unfold pipe. induction steps as [|step steps IH]; intros l; simpl.
  - now rewrite map_id.
  - now rewrite IH, map_map.
Qed.

(** Read from a table, the frame of the loader has one row per tuple: the
    tuple under the normalised labels, taken through the assignments. *)
Lemma load_rows (today : date) (data : table) :
  rows (load_full_sales_data_from_db today (Some data) expected_db_columns) =
  map (load_row today) (map stored_row data).
Proof.
  transitivity
    (pipe (map (row_of expected_db_columns) data)
          (map (@map Row Row)
               ((fun (r : Row) c' =>
                   match find (fun c => String.eqb (normalize_label c) c')
                              expected_db_columns with
                   | Some c => r c
                   | None => VNull
                   end) :: load_steps today))).
  - reflexivity.
  - rewrite pipe_map, !map_map. reflexivity.
Qed.

Lemma assign_row_get (c : string) (f : Row -> value) (r : Row) (c' : string) :
  assign_row c f r c' = if String.eqb c' c then f r else r c'.
Proof. reflexivity. Qed.

(** Reads a column of a row that went through a chain of assignments. *)
Ltac read_column :=
  unfold load_row, load_steps, pipe; cbn [fold_left];
  repeat (rewrite assign_row_get;
          match goal with
          | |- context [if String.eqb ?a ?b then _ else _] =>
              let v := eval vm_compute in (String.eqb a b) in
              change (String.eqb a b) with v; cbv iota beta
          end).

Lemma to_date_idem (v : value) : to_date (to_date v) = to_date v.
Proof.
  unfold to_date. destruct (to_datetime v); reflexivity.
Qed.

Section LoadedRow.

Variables (today : date) (r : Row).


Lemma loaded_date_called : load_row today r "date_called" = to_date (r "first_call_date").
Proof. read_column. reflexivity. Qed.

Lemma loaded_is_initial_call :
  load_row today r "is_initial_call" = VInt (Z.b2z (notna (to_date (r "first_call_date")))).
Proof. read_column. reflexivity. Qed.

Lemma loaded_status : load_row today r "status" = standard_status (r "status").
Proof. read_column. reflexivity. Qed.

Lemma loaded_sales_status :
  load_row today r "sales_status" = standard_sales_status (r "sales_status").
Proof. read_column. reflexivity. Qed.

Lemma loaded_sales_amount :
  load_row today r "sales_amount" = fillna0 (to_numeric (r "sales_amount")).
Proof. read_column. reflexivity. Qed.



Lemma loaded_agent : load_row today r "agent" = r "agent".
Proof. read_column. reflexivity. Qed.

Lemma loaded_next_follow_up_date :
  load_row today r "next_follow_up_date" = to_date (r "next_follow_up_date").
Proof. read_column. now rewrite !to_date_idem. Qed.

Lemma loaded_total_follow_up_calls :
  load_row today r "total_follow_up_calls" =
  VInt (Z.b2z (due today (to_date (r "next_follow_up_date")))).
Proof. read_column. now rewrite !to_date_idem. Qed.

End LoadedRow.

Lemma load_columns (today : date) (data : table) :
  columns (load_full_sales_data_from_db today (Some data) expected_db_columns) =
  [ "name"; "email"; "number"; "country_name"; "remarks"; "agent"; "first_call_date";
    "status"; "notes_from_call"; "post_call_email"; "tags"; "interested_category";
    "sales_status"; "sales_amount"; "next_follow_up_time"; "next_follow_up_date";
    "calling_stamp"; "signup_date"; "date_called"; "is_initial_call"; "issues";
    "call_outcome"; "country_group"; "total_follow_up_calls" ].
Proof. reflexivity. Qed.

Lemma Forall_loaded (today : date) (data : table) (P : Row -> Prop) :
  (forall r0, P (load_row today r0)) ->
  Forall P (rows (load_full_sales_data_from_db today (Some data) expected_db_columns)).
Proof.
  intros H. rewrite load_rows. apply Forall_forall. intros r Hin.
  apply in_map_iff in Hin as [r0 [<- _]]. apply H.
Qed.




Lemma dict_get_in (d : list (string * string)) (k m : string) :
  dict_get d k = Some m -> In m (map snd d).
Proof.
  unfold dict_get. induction d as [|[k' m'] d IH]; simpl; [discriminate|].
  destruct (String.eqb k' k); simpl.
  - intros [= <-]. now left.
  - intros H. right. now apply IH.
Qed.


Lemma standard_status_display (v : value) :
  standard_status v =
  match dict_get status_mapping (lookup_key v) with
  | Some mapped => VStr (status_display mapped)
  | None => VNull
  end.
Proof.
  unfold standard_status.
  destruct (dict_get status_mapping (lookup_key v)) as [m|] eqn:E; [|reflexivity].
  apply dict_get_in in E. simpl in E.
  repeat (destruct E as [<-|E]; [reflexivity|]). contradiction.
Qed.

Lemma standard_sales_status_display (v : value) :
  standard_sales_status v =
  match dict_get sales_status_mapping (lookup_key v) with
  | Some mapped => VStr (Py.title mapped)
  | None => VNull
  end.
Proof.
  unfold standard_sales_status.
  now destruct (dict_get sales_status_mapping (lookup_key v)).
Qed.


(** *** The sidebar filter *)

Lemma filter_filter {A} (p q : A -> bool) (l : list A) :
  filter p (filter q l) = filter (fun x => q x && p x) l.
Proof.
  induction l as [|a l IH]; simpl; [reflexivity|].
  destruct (q a); simpl; [destruct (p a)|]; now rewrite IH.
Qed.

Lemma select_comm (p q : Row -> bool) (df : DataFrame) :
  select p (select q df) = select q (select p df).
Proof.
  unfold select. simpl. f_equal. rewrite !filter_filter.
  apply filter_ext. intros r. apply andb_comm.
Qed.

Lemma filter_true {A} (l : list A) : filter (fun _ => true) l = l.
Proof.
  induction l as [|a l IH]; simpl; congruence.
Qed.

Lemma rows_by_agent (a : string) (df : DataFrame) :
  rows (by_agent a df) =
  filter (fun r => String.eqb a "All" || eq_str (r "agent") a) (rows df).
Proof.
  unfold by_agent. destruct (String.eqb a "All"); simpl; [now rewrite filter_true|reflexivity].
Qed.

Lemma rows_by_country (c : string) (df : DataFrame) :
  rows (by_country c df) =
  filter (fun r => String.eqb c "All" || eq_str (r "country_name") c) (rows df).
Proof.
  unfold by_country. destruct (String.eqb c "All"); simpl; [now rewrite filter_true|reflexivity].
Qed.

Lemma rows_by_status (s : string) (df : DataFrame) :
  rows (by_status s df) =
  filter (fun r => String.eqb s "All" || eq_str (r "status") s) (rows df).
Proof.
  unfold by_status. destruct (String.eqb s "All"); simpl; [now rewrite filter_true|reflexivity].
Qed.

Lemma columns_by_agent (a : string) (df : DataFrame) : columns (by_agent a df) = columns df.
Proof. unfold by_agent. now destruct (negb _). Qed.

Lemma columns_by_country (c : string) (df : DataFrame) : columns (by_country c df) = columns df.
Proof. unfold by_country. now destruct (negb _). Qed.

Lemma columns_by_status (s : string) (df : DataFrame) : columns (by_status s df) = columns df.
Proof. unfold by_status. now destruct (negb _). Qed.

Lemma columns_by_date (fc : FilterCriteria) (df : DataFrame) : columns (by_date fc df) = columns df.
Proof. unfold by_date. now destruct (has_col _ _). Qed.

Lemma columns_filtered (fc : FilterCriteria) (df : DataFrame) :
  columns (filtered_df fc df) = columns df.
Proof.
  unfold filtered_df.
  now rewrite columns_by_date, columns_by_status, columns_by_country, columns_by_agent.
Qed.

Lemma rows_filtered (fc : FilterCriteria) (df : DataFrame) :
  has_col "date_called" df = true ->
  rows (filtered_df fc df) = filter (matches fc) (rows df).
Proof.
  intros H. unfold filtered_df, by_date.
  unfold has_col in *.
  rewrite columns_by_status, columns_by_country, columns_by_agent, H. simpl.
  rewrite rows_by_status, rows_by_country, rows_by_agent, !filter_filter.
  apply filter_ext. intros r. unfold matches. now rewrite !andb_assoc.
Qed.

(** C7. On a frame with a [date_called] column, the sidebar filter keeps
    exactly the records that satisfy the conjunction of: agent equality
    unless the agent is "All", country equality unless "All", status equality
    unless "All", and [start_date <= date_called <= end_date], both ends
    included.  The four steps select rows independently of each other, so
    they commute pairwise: agent then country is country then agent. *)
Theorem filter_is_conjunction (fc : FilterCriteria) (df : DataFrame) :
  has_col "date_called" df = true ->
  rows (filtered_df fc df) = filter (matches fc) (rows df) /\
  (forall r, In r (rows (filtered_df fc df)) <-> In r (rows df) /\ matches fc r = true) /\
  (forall a c, by_country c (by_agent a df) = by_agent a (by_country c df)) /\
  (forall a s, by_status s (by_agent a df) = by_agent a (by_status s df)) /\
  (forall c s, by_status s (by_country c df) = by_country c (by_status s df)) /\
  (forall a, by_date fc (by_agent a df) = by_agent a (by_date fc df)) /\
  (forall c, by_date fc (by_country c df) = by_country c (by_date fc df)) /\
  (forall s, by_date fc (by_status s df) = by_status s (by_date fc df)).
Proof.
  intros H.
  split; [now apply rows_filtered|].
  split; [intros r; rewrite (rows_filtered fc df H); apply filter_In|].
  unfold by_agent, by_country, by_status, by_date.
  repeat split; intros;
    repeat match goal with
           | |- context [negb ?b] => destruct b; simpl
           end;
    unfold has_col in *; simpl; rewrite ?H; try reflexivity;
    try apply select_comm.
Qed.

(** *** The follow-up counters *)

Lemma follow_ups_due_single (ref : date) (r : Row) :
  follow_ups_due ref r = Z.b2z (due ref (r "next_follow_up_date")).
Proof.
  unfold follow_ups_due, follow_up_date_db_columns. simpl.
  now destruct (due ref (r "next_follow_up_date")).
Qed.

Lemma loaded_follow_ups (today : date) (r0 : Row) :
  load_row today r0 "total_follow_up_calls" = VInt (follow_ups_due today (load_row today r0)).
Proof.
  now rewrite follow_ups_due_single, loaded_total_follow_up_calls, loaded_next_follow_up_date.
Qed.

Lemma total_ext_in (f g : Row -> Z) (rs : list Row) :
  (forall r, In r rs -> f r = g r) -> total f rs = total g rs.
Proof.
  intros H. unfold total. f_equal. now apply map_ext_in.
Qed.

Lemma load_has_col (today : date) (data : table) (c : string) :
  Py.mem c
    [ "name"; "email"; "number"; "country_name"; "remarks"; "agent"; "first_call_date";
      "status"; "notes_from_call"; "post_call_email"; "tags"; "interested_category";
      "sales_status"; "sales_amount"; "next_follow_up_time"; "next_follow_up_date";
      "calling_stamp"; "signup_date"; "date_called"; "is_initial_call"; "issues";
      "call_outcome"; "country_group"; "total_follow_up_calls" ] = true ->
  has_col c (load_full_sales_data_from_db today (Some data) expected_db_columns) = true.
Proof.
  intros H. unfold has_col. rewrite load_columns. exact H.
Qed.

Lemma rows_filtered_loaded (today : date) (data : table) (fc : FilterCriteria) :
  rows (filtered_df fc (load_full_sales_data_from_db today (Some data) expected_db_columns)) =
  filter (matches fc)
         (rows (load_full_sales_data_from_db today (Some data) expected_db_columns)).
Proof.
  apply rows_filtered. apply load_has_col. reflexivity.
Qed.

Lemma overall_total (fc : FilterCriteria) (fdf : DataFrame) :
  has_col "next_follow_up_date" fdf = true ->
  total_follow_up_calls_overall fc fdf = total (follow_ups_due (end_date fc)) (rows fdf).
Proof.
  intros H. unfold total_follow_up_calls_overall, follow_up_date_cols_for_counting.
  cbn [fold_left]. rewrite H, Z.add_0_l.
  apply total_ext_in. intros r _. now rewrite follow_ups_due_single.
Qed.

Lemma has_col_filtered (c : string) (fc : FilterCriteria) (df : DataFrame) :
  has_col c (filtered_df fc df) = has_col c df.
Proof.
  unfold has_col. now rewrite columns_filtered.
Qed.

(** The counters on any frame whose records carry their follow-up count. *)
Lemma follow_up_totals (ref : date) (fc : FilterCriteria) (df : DataFrame) :
  has_col "date_called" df = true ->
  has_col "next_follow_up_date" df = true ->
  Forall (fun r => r "total_follow_up_calls" = VInt (follow_ups_due ref r)) (rows df) ->
  total_follow_up_calls_overall fc (filtered_df fc df) =
  total (follow_ups_due (end_date fc)) (rows (filtered_df fc df)) /\
  (forall selected_agent,
     total_follow_up_calls_agent selected_agent (filtered_df fc df) =
     total (follow_ups_due ref)
       (filter (fun r => eq_str (r "agent") selected_agent) (rows (filtered_df fc df)))) /\
  total_follow_up_calls_report (filtered_df fc df) =
  total (follow_ups_due ref) (rows (filtered_df fc df)).
Proof.
  intros Hd Hn Hrec.
  assert (Hint : forall r, In r (rows (filtered_df fc df)) ->
                 as_int (r "total_follow_up_calls") = follow_ups_due ref r).
  { intros r Hin. rewrite (rows_filtered fc df Hd) in Hin.
    apply filter_In in Hin as [Hin _].
    rewrite Forall_forall in Hrec. now rewrite (Hrec r Hin). }
  split; [|split].
  - apply overall_total. now rewrite has_col_filtered.
  - intros a. unfold total_follow_up_calls_agent, col_sum, select, rows at 1.
    apply total_ext_in. intros r Hin. apply Hint. now apply filter_In in Hin.
  - unfold total_follow_up_calls_report, col_sum. apply total_ext_in. exact Hint.
Qed.

(** C3 (as amended). For every record of the loaded frame,
    [total_follow_up_calls] is the number of configured follow-up-date fields
    (only [next_follow_up_date]) that are not null and not after the day of
    the load.  Under a filter, the overall follow-up total is recomputed
    against the filter's [end_date]; the per-agent and the report totals are
    sums of the per-record values of the load, whose reference date is the
    day of the load. *)
Theorem follow_up_reference_dates (today : date) (data : table) (fc : FilterCriteria) :
  Forall (fun r => r "total_follow_up_calls" = VInt (follow_ups_due today r))
         (rows (load_full_sales_data_from_db today (Some data) expected_db_columns)) /\
  total_follow_up_calls_overall fc
    (filtered_df fc (load_full_sales_data_from_db today (Some data) expected_db_columns)) =
  total (follow_ups_due (end_date fc))
    (rows (filtered_df fc (load_full_sales_data_from_db today (Some data) expected_db_columns))) /\
  (forall selected_agent,
     total_follow_up_calls_agent selected_agent
       (filtered_df fc (load_full_sales_data_from_db today (Some data) expected_db_columns)) =
     total (follow_ups_due today)
       (filter (fun r => eq_str (r "agent") selected_agent)
          (rows (filtered_df fc
                   (load_full_sales_data_from_db today (Some data) expected_db_columns))))) /\
  total_follow_up_calls_report
    (filtered_df fc (load_full_sales_data_from_db today (Some data) expected_db_columns)) =
  total (follow_ups_due today)
    (rows (filtered_df fc (load_full_sales_data_from_db today (Some data) expected_db_columns))).
Proof.
  assert (Hrec : Forall (fun r => r "total_follow_up_calls" = VInt (follow_ups_due today r))
                   (rows (load_full_sales_data_from_db today (Some data) expected_db_columns))).
  { apply Forall_loaded. intros r0. apply loaded_follow_ups. }
  split; [exact Hrec|].
  apply follow_up_totals; [apply load_has_col; reflexivity|apply load_has_col; reflexivity|].
  exact Hrec.
Qed.

(** ** Further properties of the synchroniser *)

Lemma data_to_insert_shape (cols : list string) (df : DataFrame) :
  Forall (fun t => length t = length cols /\
                   Forall (fun v => forall s, v = VStr s -> Py.strip s <> EmptyString) t)
         (data_to_insert cols df).
Proof.
  unfold data_to_insert. apply Forall_forall. intros t Hin.
  apply in_map_iff in Hin as [r [<- _]]. split.
  - now rewrite length_map.
  - apply Forall_forall. intros v Hv. apply in_map_iff in Hv as [c [<- _]].
    intros s Hs. unfold processed_value in Hs.
    destruct (r c) as [|s'|z|q|d]; try discriminate.
    destruct (String.eqb_spec (Py.strip s') EmptyString) as [E|E]; [discriminate|].
    now injection Hs as <-.
Qed.

Lemma main_loads (src : Source) (db : database) :
  empty (fetch_data_from_gsheets src) = false ->
  main no_faults src db =
  (Some (data_to_insert expected_db_columns (fetch_data_from_gsheets src)), Done).
Proof.
  intros H. unfold main.
  destruct src; try (simpl in H; discriminate H); rewrite H; apply insert_no_faults.
Qed.

(** X1. What a run without failure leaves in the table: every tuple has one
    field per expected column, eighteen of them, and no field is empty or
    whitespace-only text, such cells being stored as NULL. *)
Theorem stored_tuples_shape (src : Source) (db : database) :
  empty (fetch_data_from_gsheets src) = false ->
  snd (main no_faults src db) = Done /\
  Forall (fun t => length t = 18 /\
                   Forall (fun v => forall s, v = VStr s -> Py.strip s <> EmptyString) t)
         (select_all (fst (main no_faults src db))).
Proof.
  intros H. rewrite (main_loads src db H). split; [reflexivity|].
  apply (data_to_insert_shape expected_db_columns).
Qed.

(** X2. Full refresh: when at least one row is accepted, the table a run
    without failure leaves depends on the source alone; nothing of what the
    table held before, and not even whether it existed, makes a
    difference. *)
Theorem full_refresh_forgets_previous_rows (src : Source) (db1 db2 : database) :
  empty (fetch_data_from_gsheets src) = false ->
  fst (main no_faults src db1) = fst (main no_faults src db2).
Proof.
  intros H. now rewrite !(main_loads src _ H).
Qed.

Lemma set_rows_Forall (P : Row -> Prop) (col : string) (rs : list Row) :
  (forall r v, P r -> P (upd col v r)) ->
  Forall P rs -> forall vs, Forall P (set_rows col rs vs).
Proof.
  intros Hupd H. induction H as [|r rs Hr _ IH]; intros [|v vs]; simpl; constructor; auto.
Qed.

Section ReorderDefaults.

Variables (df : DataFrame) (c : string).
Hypothesis c_absent : has_col c df = false.

Lemma reorder_step_keeps_default (acc : DataFrame) (col : string) :
  length (rows acc) = length (rows df) ->
  defaulted c acc -> defaulted c (reorder_step df acc col).
Proof.
  unfold defaulted, reorder_step. intros Hfull H.
  destruct (has_col col df) eqn:E.
  - assert (Hne : String.eqb c col = false).
    { destruct (String.eqb_spec c col) as [->|]; [congruence|reflexivity]. }
    unfold assign_series. simpl.
    destruct (rows acc) as [|r rs] eqn:Er.
    + unfold series. destruct (rows df); [constructor|discriminate].
    + apply set_rows_Forall; [|exact H].
      intros r' v Hr'. unfold upd. now rewrite Hne.
  - unfold assign_scalar, assign, assign_row. simpl.
    apply Forall_forall. intros r' Hin. apply in_map_iff in Hin as [r [<- Hin]].
    unfold upd. destruct (String.eqb_spec c col) as [->|_]; [reflexivity|].
    rewrite Forall_forall in H. now apply H.
Qed.

Lemma reorder_step_defaults (acc : DataFrame) : defaulted c (reorder_step df acc c).
Proof.
  unfold defaulted, reorder_step. rewrite c_absent.
  unfold assign_scalar, assign, assign_row. simpl.
  apply Forall_forall. intros r' Hin. apply in_map_iff in Hin as [r [<- _]].
  unfold upd. now rewrite String.eqb_refl.
Qed.

Lemma fold_reorder_keeps_default (cols : list string) :
  forall acc,
    length (rows acc) = length (rows df) ->
    defaulted c acc -> defaulted c (fold_left (reorder_step df) cols acc).
Proof.
  induction cols as [|col cols IH]; intros acc Hfull H; simpl; [exact H|].
  apply IH; [now apply reorder_step_full|now apply reorder_step_keeps_default].
Qed.

Lemma fold_reorder_defaults (cols : list string) :
  forall acc,
    length (rows acc) = length (rows df) ->
    In c cols -> defaulted c (fold_left (reorder_step df) cols acc).
Proof.
  induction cols as [|col cols IH]; intros acc Hfull Hin; simpl in *; [contradiction|].
  destruct (String.eqb_spec col c) as [->|Hne].
  - apply fold_reorder_keeps_default; [now apply reorder_step_full|].
    apply reorder_step_defaults.
  - destruct Hin as [Heq|Hin]; [congruence|].
    apply IH; [now apply reorder_step_full|exact Hin].
Qed.

(** A column the sheet lacks, placed after [email] in the expected order,
    holds its default in every row of [df_reordered]. *)
Lemma reorder_defaults :
  has_col "email" df = true ->
  In c (skipn 2 expected_db_columns) ->
  defaulted c (reorder df).
Proof.
  intros He Hin.
  change (reorder df)
    with (fold_left (reorder_step df) (skipn 2 expected_db_columns)
            (reorder_step df
               (reorder_step df (mkframe expected_db_columns []) "name") "email")).
  apply fold_reorder_defaults; [|exact Hin].
  unfold reorder_step at 1. rewrite He.
  assert (Ha : aligned df (reorder_step df (mkframe expected_db_columns []) "name")).
  { apply reorder_step_aligned. now left. }
  rewrite rows_assign_series_length; unfold series; rewrite length_map; auto.
Qed.

End ReorderDefaults.

Lemma has_col_columns (c : string) (df df' : DataFrame) :
  columns df' = columns df -> has_col c df' = has_col c df.
Proof.
  unfold has_col. now intros ->.
Qed.

Lemma columns_assign_twice (c : string) (f g : Row -> value) (df : DataFrame) :
  has_col c df = true -> columns (assign c g (assign c f df)) = columns df.
Proof.
  intros H. rewrite has_col_assign; [now apply has_col_assign|].
  now rewrite (has_col_columns c df _ (has_col_assign c f df H)).
Qed.

(** [prepare] acts row by row on the labelled frame. *)
Lemma prepare_rows (w : Worksheet) :
  rows (prepare w) = map (prepared_row (labelled w)) (rows (labelled w)).
Proof.
  unfold prepare, date_cols_from_sheet, prepared_row. cbn [fold_left].
  generalize (labelled w). intros L.
  destruct (has_col "sales_amount" L) eqn:Es.
  - rewrite (has_col_columns "first_call_date" L _ (columns_assign_twice _ _ _ L Es)).
    destruct (has_col "first_call_date" L) eqn:Ef.
    + assert (Ef' : has_col "first_call_date"
                      (assign "sales_amount"
                         (fun r => fillna0 (to_numeric (r "sales_amount")))
                         (assign "sales_amount"
                            (fun r => VStr (Py.drop_dollar_comma (astype_str (r "sales_amount"))))
                            L)) = true).
      { now rewrite (has_col_columns _ L _ (columns_assign_twice _ _ _ L Es)). }
      rewrite (has_col_columns "next_follow_up_date" L _
                 (eq_trans (has_col_assign _ _ _ Ef') (columns_assign_twice _ _ _ L Es))).
      destruct (has_col "next_follow_up_date" L); unfold assign; simpl;
        rewrite ?map_map; reflexivity.
    + rewrite (has_col_columns "next_follow_up_date" L _ (columns_assign_twice _ _ _ L Es)).
      destruct (has_col "next_follow_up_date" L); unfold assign; simpl;
        rewrite ?map_map; reflexivity.
  - destruct (has_col "first_call_date" L) eqn:Ef.
    + rewrite (has_col_columns "next_follow_up_date" L _ (has_col_assign _ _ _ Ef)).
      destruct (has_col "next_follow_up_date" L); unfold assign; simpl;
        rewrite ?map_map; try reflexivity.
    + destruct (has_col "next_follow_up_date" L); unfold assign; simpl;
        rewrite ?map_map, ?map_id; reflexivity.
Qed.

Lemma prepared_email (df : DataFrame) (r : Row) : prepared_row df r "email" = r "email".
Proof.
  unfold prepared_row.
  destruct (has_col "sales_amount" df), (has_col "first_call_date" df),
    (has_col "next_follow_up_date" df); reflexivity.
Qed.

Lemma prepared_sales_amount (df : DataFrame) (r : Row) :
  has_col "sales_amount" df = true ->
  prepared_row df r "sales_amount" = VNum (amount_of (r "sales_amount")).
Proof.
  intros H. unfold prepared_row. rewrite H.
  destruct (has_col "next_follow_up_date" df), (has_col "first_call_date" df);
    unfold assign_row, upd, amount_of, fillna0, to_numeric; simpl;
    destruct (parse_numeric _); reflexivity.
Qed.

Lemma prepared_date (df : DataFrame) (r : Row) (c : string) :
  In c date_cols_from_sheet ->
  has_col c df = true ->
  prepared_row df r c = to_date (r c).
Proof.
  intros Hin H. unfold prepared_row.
  destruct Hin as [<-|[<-|[]]]; rewrite H;
    destruct (has_col "sales_amount" df); try destruct (has_col "first_call_date" df);
    try destruct (has_col "next_follow_up_date" df); reflexivity.
Qed.

Lemma Forall2_of_map_l {A B C} (f : A -> B) (P : B -> C -> Prop) (l : list A) :
  forall l', Forall2 P (map f l) l' -> Forall2 (fun a c => P (f a) c) l l'.
Proof.
  induction l as [|a l IH]; intros l' H; inversion H; subst; constructor; auto.
Qed.

Lemma Forall2_to_map_r {A B C} (g : B -> C) (P : A -> C -> Prop) (l : list A) :
  forall l', Forall2 (fun a b => P a (g b)) l l' -> Forall2 P l (map g l').
Proof.
  induction l as [|a l IH]; intros l' H; inversion H; subst; simpl; constructor; auto.
Qed.

Lemma Forall2_of_Forall_r {A B} (P : B -> Prop) (l : list A) :
  forall l', length l' = length l -> Forall P l' -> Forall2 (fun _ b => P b) l l'.
Proof.
  induction l as [|a l IH]; intros [|b l'] Hlen H; simpl in *; try discriminate; constructor.
  - now inversion H.
  - apply IH; [lia|now inversion H].
Qed.

Lemma Forall2_impl {A B} (P Q : A -> B -> Prop) (l : list A) (l' : list B) :
  (forall a b, P a b -> Q a b) -> Forall2 P l l' -> Forall2 Q l l'.
Proof.
  intros H. induction 1; constructor; auto.
Qed.

Lemma filter_map_comm {A} (g : A -> A) (p : A -> bool) (l : list A) :
  (forall a, p (g a) = p a) -> filter p (map g l) = map g (filter p l).
Proof.
  intros H. induction l as [|a l IH]; simpl; [reflexivity|].
  rewrite H. destruct (p a); simpl; now rewrite IH.
Qed.

(** The rows that pass the gate are the prepared rows of the sheet whose
    email is present. *)
Lemma accepted_rows (w : Worksheet) :
  filter email_present (rows (prepare w)) =
  map (prepared_row (labelled w)) (filter email_present (rows (labelled w))).
Proof.
  rewrite prepare_rows. apply filter_map_comm.
  intros r. unfold email_present. now rewrite prepared_email.
Qed.

(** What the run sends for a cell: the prepared cell of the accepted row
    under a column the sheet has, the default of the column otherwise, null
    and blank text going as NULL. *)
Lemma stored_cell (w : Worksheet) (c : string) :
  has_col "email" (labelled w) = true ->
  In c expected_db_columns ->
  has_col c (labelled w) = true \/ In c (skipn 2 expected_db_columns) ->
  Forall2 (fun r0 t =>
             row_of expected_db_columns t c =
             processed_value (if has_col c (labelled w)
                              then prepared_row (labelled w) r0 c
                              else missing_default c))
          (filter email_present (rows (labelled w)))
          (data_to_insert expected_db_columns (fetch_data_from_gsheets (Sheet w))).
Proof.
  intros He Hin Hc.
  assert (Hf : fetch_data_from_gsheets (Sheet w) = reorder (select email_present (prepare w))).
  { unfold fetch_data_from_gsheets, fetch_records. now rewrite has_email_prepare, He. }
  rewrite Hf. unfold data_to_insert.
  assert (HeF : has_col "email" (select email_present (prepare w)) = true).
  { unfold has_col in *. simpl. now rewrite prepare_columns. }
  assert (HcF : has_col c (select email_present (prepare w)) = has_col c (labelled w)).
  { unfold has_col. simpl. now rewrite prepare_columns. }
  apply Forall2_to_map_r.
  destruct (has_col c (labelled w)) eqn:Ec.
  - pose proof (reorder_copies _ c HcF Hin) as Hcp.
    unfold copied in Hcp. simpl in Hcp. rewrite accepted_rows in Hcp.
    apply Forall2_of_map_l in Hcp.
    apply (Forall2_impl _ _ _ _ (fun r0 r (H : r c = prepared_row (labelled w) r0 c) =>
             eq_trans (row_of_tuple (fun col => processed_value (r col)) _ c Hin)
                      (f_equal processed_value H))).
    exact Hcp.
  - destruct Hc as [Hc|Hc]; [discriminate|].
    pose proof (reorder_defaults _ c HcF HeF Hc) as Hd. unfold defaulted in Hd.
    pose proof (reorder_length _ HeF) as Hl. simpl in Hl.
    rewrite accepted_rows, length_map in Hl.
    apply (Forall2_impl (fun _ r => r c = missing_default c)).
    + intros r0 r H. rewrite (row_of_tuple (fun col => processed_value (r col))); [|exact Hin].
      now rewrite H.
    + now apply Forall2_of_Forall_r.
Qed.

Lemma stored_amount_cell (w : Worksheet) :
  has_col "email" (labelled w) = true ->
  Forall2 (fun r0 t =>
             row_of expected_db_columns t "sales_amount" =
             VNum (if has_col "sales_amount" (labelled w)
                   then amount_of (r0 "sales_amount") else 0%Q))
          (filter email_present (rows (labelled w)))
          (data_to_insert expected_db_columns (fetch_data_from_gsheets (Sheet w))).
Proof.
  intros He.
  eapply Forall2_impl; cycle 1.
  - apply (stored_cell w "sales_amount" He); [simpl; tauto|right; simpl; tauto].
  - intros r0 t H. cbv beta in H. rewrite H.
    destruct (has_col "sales_amount" (labelled w)) eqn:E; [|reflexivity].
    now rewrite prepared_sales_amount.
Qed.

(** X3. For a sheet with distinct labels and an [email] column, the amount
    of every tuple built for the store is a number, never NULL and never
    text: for a sheet with a [sales_amount] column, the number
    read from the cell once [$] and [,] are dropped, 0 when none is read; 0
    for a sheet without the column. *)
Theorem stored_sales_amount_is_number (w : Worksheet) :
  NoDup (columns (labelled w)) ->
  has_col "email" (labelled w) = true ->
  Forall2 (fun r0 t =>
             row_of expected_db_columns t "sales_amount" =
             VNum (if has_col "sales_amount" (labelled w)
                   then amount_of (r0 "sales_amount") else 0%Q))
          (filter email_present (rows (labelled w)))
          (data_to_insert expected_db_columns (fetch_data_from_gsheets (Sheet w))).
Proof.
  intros _. exact (stored_amount_cell w).
Qed.

Lemma processed_to_date (v : value) : processed_value (to_date v) = to_date v.
Proof.
  unfold to_date. now destruct (to_datetime v).
Qed.

Lemma stored_date_cell (w : Worksheet) (c : string) :
  has_col "email" (labelled w) = true ->
  In c date_cols_from_sheet ->
  Forall2 (fun r0 t =>
             row_of expected_db_columns t c =
             (if has_col c (labelled w) then to_date (r0 c) else VNull) /\
             (row_of expected_db_columns t c = VNull \/
              exists d, row_of expected_db_columns t c = VDate d))
          (filter email_present (rows (labelled w)))
          (data_to_insert expected_db_columns (fetch_data_from_gsheets (Sheet w))).
Proof.
  intros He Hc.
  assert (Hin : In c expected_db_columns /\ In c (skipn 2 expected_db_columns) /\
                missing_default c = VNull).
  { destruct Hc as [<-|[<-|[]]]; repeat split; simpl; tauto. }
  destruct Hin as [Hin [Hskip Hdef]].
  eapply Forall2_impl; cycle 1.
  - apply (stored_cell w c He Hin). now right.
  - intros r0 t H. cbv beta in H. rewrite H.
    destruct (has_col c (labelled w)) eqn:E.
    + rewrite (prepared_date _ r0 c Hc E), processed_to_date. split; [reflexivity|].
      unfold to_date. destruct (to_datetime (r0 c)) as [d|]; [right; now exists d|now left].
    + rewrite Hdef. split; [reflexivity|now left].
Qed.

(** X4. For a sheet with distinct labels and an [email] column, under
    [first_call_date] and [next_follow_up_date] every tuple built for the
    store holds a date or NULL, never text: the date read from the
    cell of the sheet, NULL when the cell does not read as a date or the
    sheet lacks the column. *)
Theorem stored_dates_are_dates (w : Worksheet) (c : string) :
  NoDup (columns (labelled w)) ->
  has_col "email" (labelled w) = true ->
  In c date_cols_from_sheet ->
  Forall2 (fun r0 t =>
             row_of expected_db_columns t c =
             (if has_col c (labelled w) then to_date (r0 c) else VNull) /\
             (row_of expected_db_columns t c = VNull \/
              exists d, row_of expected_db_columns t c = VDate d))
          (filter email_present (rows (labelled w)))
          (data_to_insert expected_db_columns (fetch_data_from_gsheets (Sheet w))).
Proof.
  intros _. exact (stored_date_cell w c).
Qed.

Lemma Forall2_with_Forall {A B} (P : A -> B -> Prop) (Q : A -> Prop) (l : list A) :
  forall l', Forall Q l -> Forall2 P l l' -> Forall2 (fun a b => Q a /\ P a b) l l'.
Proof.
  induction l as [|a l IH]; intros l' HQ H; inversion H; subst; constructor.
  - split; [now inversion HQ|assumption].
  - apply IH; [now inversion HQ|assumption].
Qed.

Lemma Forall_filter {A} (p : A -> bool) (l : list A) :
  Forall (fun a => p a = true) (filter p l).
Proof.
  apply Forall_forall. intros a Hin. now apply filter_In in Hin.
Qed.

(** X5. The gate tests [email] against null and the empty text only, and the
    insertion blanks whitespace: for a sheet with distinct labels, an
    accepted row is stored with a NULL email
    exactly when its email is whitespace-only text; any other accepted email
    is stored as it is. *)
Theorem whitespace_email_stored_as_null (w : Worksheet) :
  NoDup (columns (labelled w)) ->
  has_col "email" (labelled w) = true ->
  Forall2 (fun r0 t =>
             (row_of expected_db_columns t "email" = VNull <-> whitespace_only (r0 "email")) /\
             (~ whitespace_only (r0 "email") ->
              row_of expected_db_columns t "email" = r0 "email"))
          (filter email_present (rows (labelled w)))
          (data_to_insert expected_db_columns (fetch_data_from_gsheets (Sheet w))).
Proof.
  intros _ He.
  eapply Forall2_impl; cycle 1.
  - apply Forall2_with_Forall; [apply (Forall_filter email_present)|].
    apply (stored_cell w "email" He); [simpl; tauto|now left].
  - intros r0 t [Hp H]. cbv beta in H. rewrite He, prepared_email in H. rewrite H.
    unfold email_present, notna, ne_str, eq_str, isna in Hp.
    unfold whitespace_only, processed_value.
    destruct (r0 "email") as [|s|z|q|d]; try discriminate Hp.
    + simpl in Hp. destruct (String.eqb_spec s EmptyString) as [|Hs]; [discriminate|].
      destruct (String.eqb_spec (Py.strip s) EmptyString) as [E|E].
      * split; [split; [intros _; now exists s|reflexivity]|].
        intros Hn. exfalso. apply Hn. now exists s.
      * split; [split; [discriminate|]|reflexivity].
        intros [s' [[= <-] [_ Hs']]]. contradiction.
    + split; [split; [discriminate|intros [s [Hs _]]; discriminate]|reflexivity].
    + split; [split; [discriminate|intros [s [Hs _]]; discriminate]|reflexivity].
    + split; [split; [discriminate|intros [s [Hs _]]; discriminate]|reflexivity].
Qed.

(** ** From the sheet to the dashboard *)











(** ** Further properties of the loader *)


Section LoadedRowMore.

Variables (today : date) (r : Row).

Lemma loaded_call_outcome :
  load_row today r "call_outcome" = str_extract call_outcomes (load_row today r "status").
Proof. rewrite loaded_status. read_column. reflexivity. Qed.

Lemma loaded_issues :
  load_row today r "issues" =
  match str_extract issue_catalog (r "tags") with
  | VNull => VStr "N/A"
  | v => v
  end.
Proof. read_column. reflexivity. Qed.

Lemma loaded_next_follow_up_time :
  load_row today r "next_follow_up_time" = follow_up_time (r "next_follow_up_time").
Proof. read_column. reflexivity. Qed.

Lemma loaded_email : load_row today r "email" = r "email".
Proof. read_column. reflexivity. Qed.

End LoadedRowMore.

Lemma standard_status_cases (v : value) :
  In (standard_status v)
     [ VNull; VStr "Answered"; VStr "Not answered"; VStr "Invalid number"; VStr "Voicemail" ].
Proof.
  rewrite standard_status_display.
  destruct (dict_get status_mapping (lookup_key v)) as [m|] eqn:E; [|now left].
  apply dict_get_in in E. simpl in E.
  repeat (destruct E as [<-|E]; [simpl; tauto|]). contradiction.
Qed.

Lemma standard_sales_status_cases (v : value) :
  In (standard_sales_status v)
     [ VNull; VStr "Converted"; VStr "Not Interested"; VStr "Follow Up" ].
Proof.
  rewrite standard_sales_status_display.
  destruct (dict_get sales_status_mapping (lookup_key v)) as [m|] eqn:E; [|now left].
  apply dict_get_in in E. simpl in E.
  repeat (destruct E as [<-|E]; [simpl; tauto|]). contradiction.
Qed.

(** X8. [call_outcome] of a loaded record is its [status]: on the closed
    vocabulary the loader produces, the extraction by regular expression
    returns the whole value, and null for a null status. *)
Theorem call_outcome_is_status (today : date) (data : table) :
  Forall (fun r => r "call_outcome" = r "status")
         (rows (load_full_sales_data_from_db today (Some data) expected_db_columns)).
Proof.
  apply Forall_loaded. intros r0.
  rewrite loaded_call_outcome, loaded_status.
  pose proof (standard_status_cases (r0 "status")) as H. simpl in H.
  repeat (destruct H as [<-|H]; [reflexivity|]). contradiction.
Qed.

Lemma lower_substring_prefix (a : string) :
  forall s,
    String.prefix (Py.lower a) (Py.lower s) = true ->
    Py.lower (String.substring 0 (String.length a) s) = Py.lower a.
Proof.
  induction a as [|c a IH]; intros s H.
  - destruct s; reflexivity.
  - destruct s as [|d s]; simpl in H; [discriminate|].
    destruct (ascii_dec (Py.to_lower c) (Py.to_lower d)) as [E|E]; [|discriminate].
    simpl. rewrite (IH s H). now rewrite E.
Qed.

Lemma match_at_spec (alts : list string) (s m : string) :
  match_at alts s = Some m ->
  exists a, In a alts /\ Py.lower m = Py.lower a.
Proof.
  induction alts as [|a alts IH]; simpl; [discriminate|].
  destruct (String.prefix (Py.lower a) (Py.lower s)) eqn:E.
  - intros [= <-]. exists a. split; [now left|]. now apply lower_substring_prefix.
  - intros H. destruct (IH H) as [a' [Hin Hl]]. exists a'. split; [now right|exact Hl].
Qed.

Lemma search_spec (alts : list string) (m : string) :
  forall s, search alts s = Some m -> exists a, In a alts /\ Py.lower m = Py.lower a.
Proof.
  induction s as [|c s IH]; simpl.
  - destruct (match_at alts EmptyString) as [m'|] eqn:E; [|discriminate].
    intros [= <-]. now apply (match_at_spec alts EmptyString).
  - destruct (match_at alts (String c s)) as [m'|] eqn:E.
    + intros [= <-]. now apply (match_at_spec alts (String c s)).
    + exact IH.
Qed.

(** X9. [issues] of a loaded record is never null: it is "N/A", or a piece
    of [tags] that is, letter case apart, a term of the issue catalog; it is
    "N/A" whenever [tags] is null or is not text. *)
Theorem issues_from_catalog (today : date) (data : table) :
  Forall (fun r =>
            (r "issues" = VStr "N/A" \/
             exists m a, r "issues" = VStr m /\ In a issue_catalog /\
                         Py.lower m = Py.lower a) /\
            ((forall s, r "tags" <> VStr s) -> r "issues" = VStr "N/A"))
         (rows (load_full_sales_data_from_db today (Some data) expected_db_columns)).
Proof.
  apply Forall_loaded. intros r0.
  assert (Ht : load_row today r0 "tags" = r0 "tags") by (read_column; reflexivity).
  rewrite loaded_issues, Ht. unfold str_extract.
  destruct (r0 "tags") as [|s|z|q|d];
    try (split; [now left|reflexivity]).
  destruct (search issue_catalog s) as [m|] eqn:E; simpl.
  - split.
    + right. destruct (search_spec _ _ _ E) as [a [Hin Hl]]. now exists m, a.
    + intros H. exfalso. now apply (H s).
  - split; [now left|reflexivity].
Qed.

(** X10. The columns the dashboard computes with are well-typed in every
    loaded record: the amount is a number, [date_called] and
    [next_follow_up_date] are a date or null, [is_initial_call] and
    [total_follow_up_calls] are 0 or 1, and [next_follow_up_time] is text. *)
Theorem loaded_columns_typed (today : date) (data : table) :
  Forall (fun r =>
            ((exists q, r "sales_amount" = VNum q) \/ (exists z, r "sales_amount" = VInt z)) /\
            (r "date_called" = VNull \/ exists d, r "date_called" = VDate d) /\
            (r "next_follow_up_date" = VNull \/ exists d, r "next_follow_up_date" = VDate d) /\
            (r "is_initial_call" = VInt 0 \/ r "is_initial_call" = VInt 1) /\
            (r "total_follow_up_calls" = VInt 0 \/ r "total_follow_up_calls" = VInt 1) /\
            (exists s, r "next_follow_up_time" = VStr s))
         (rows (load_full_sales_data_from_db today (Some data) expected_db_columns)).
Proof.
  apply Forall_loaded. intros r0.
  rewrite loaded_sales_amount, loaded_date_called, loaded_next_follow_up_date,
    loaded_is_initial_call, loaded_total_follow_up_calls, loaded_next_follow_up_time.
  repeat split.
  - unfold fillna0, to_numeric.
    destruct (r0 "sales_amount") as [|s|z|q|d]; simpl; eauto.
    destruct (parse_numeric s); simpl; eauto.
  - unfold to_date. destruct (to_datetime _); eauto.
  - unfold to_date. destruct (to_datetime _); eauto.
  - destruct (notna _); simpl; auto.
  - destruct (due _ _); simpl; auto.
  - unfold follow_up_time. eauto.
Qed.

(** ** Further properties of the dashboard *)

Lemma date_leb_iff (a b : date) :
  date_leb a b = true <->
  (year a < year b \/
   (year a = year b /\ (month a < month b \/ (month a = month b /\ day a <= day b))))%Z.
Proof.
  unfold date_leb.
  rewrite !orb_true_iff, !andb_true_iff, !orb_true_iff, !andb_true_iff,
    !Z.ltb_lt, !Z.eqb_eq, Z.leb_le.
  reflexivity.
Qed.

Lemma date_ltb_iff (a b : date) :
  date_ltb a b = true <->
  (year a < year b \/
   (year a = year b /\ (month a < month b \/ (month a = month b /\ day a < day b))))%Z.
Proof.
  unfold date_ltb.
  rewrite !orb_true_iff, !andb_true_iff, !orb_true_iff, !andb_true_iff,
    !Z.ltb_lt, !Z.eqb_eq.
  reflexivity.
Qed.

Lemma date_leb_refl (a : date) : date_leb a a = true.
Proof. apply date_leb_iff. lia. Qed.

Lemma date_leb_trans (a b c : date) :
  date_leb a b = true -> date_leb b c = true -> date_leb a c = true.
Proof. rewrite !date_leb_iff. lia. Qed.

Lemma date_leb_total (a b : date) : date_leb a b = true \/ date_leb b a = true.
Proof. rewrite !date_leb_iff. lia. Qed.

Lemma date_ltb_leb (a b : date) : date_ltb a b = negb (date_leb b a).
Proof.
  destruct (date_ltb a b) eqn:E1, (date_leb b a) eqn:E2; try reflexivity; exfalso.
  - apply date_ltb_iff in E1. apply date_leb_iff in E2. lia.
  - apply not_true_iff_false in E1, E2.
    rewrite date_ltb_iff in E1. rewrite date_leb_iff in E2. lia.
Qed.

Lemma count_eq_none (c s : string) (rs : list Row) :
  Forall (fun r => eq_str (r c) s = false) rs -> count_eq c s rs = 0%Z.
Proof.
  intros H. unfold count_eq.
  replace (filter (fun r => eq_str (r c) s) rs) with (@nil Row); [reflexivity|].
  induction H as [|r rs Hr _ IH]; simpl; [reflexivity|]. now rewrite Hr.
Qed.

Lemma Forall_group (P : Row -> Prop) (by_ key : string) (df : DataFrame) :
  Forall P (rows df) -> Forall P (group by_ key df).
Proof.
  intros H. unfold group. apply (incl_Forall (l1 := rows df)); [|exact H].
  intros r Hr. now apply filter_In in Hr.
Qed.

Lemma Forall_filtered_loaded (today : date) (data : table) (fc : FilterCriteria)
      (P : Row -> Prop) :
  (forall r0, matches fc (load_row today r0) = true -> P (load_row today r0)) ->
  Forall P (rows (filtered_df fc
                    (load_full_sales_data_from_db today (Some data) expected_db_columns))).
Proof.
  intros H. rewrite rows_filtered_loaded, load_rows.
  apply Forall_forall. intros r Hin. apply filter_In in Hin as [Hin Hm].
  apply in_map_iff in Hin as [r0 [<- _]]. now apply H.
Qed.

(** X11. The loader title-cases the sales status, so no loaded record has
    the spelling "Follow up" or "Not interested" that the statistics compare
    with: under every filter and for every agent or country, the number of
    records counted as "Follow up" is 0, the sales follow-up rate of every
    group is 0, and the sales distribution of an agent is 0 for "Follow up"
    and for "Not interested". *)
Theorem sales_follow_up_never_counted
    (today : date) (data : table) (fc : FilterCriteria) (by_ key : string) :
  count_eq "sales_status" "Follow up"
    (group by_ key
       (filtered_df fc
          (load_full_sales_data_from_db today (Some data) expected_db_columns))) = 0%Z /\
  match Sales_Follow_Up_Rate
          (group_stats by_ key
             (filtered_df fc
                (load_full_sales_data_from_db today (Some data) expected_db_columns)))
  with
  | Some rate => Qeq rate 0
  | None =>
      group by_ key
        (filtered_df fc
           (load_full_sales_data_from_db today (Some data) expected_db_columns)) = []
  end /\
  exists converted,
    sales_dist key
      (filtered_df fc
         (load_full_sales_data_from_db today (Some data) expected_db_columns)) =
    [ ("Follow up", 0%Z); ("Not interested", 0%Z); ("Converted", converted) ].
Proof.
  assert (H : forall by_ s,
            s = "Follow up" \/ s = "Not interested" ->
            count_eq "sales_status" s
              (group by_ key
                 (filtered_df fc
                    (load_full_sales_data_from_db today (Some data)
                       expected_db_columns))) = 0%Z).
  { intros b s Hs. apply count_eq_none, Forall_group, Forall_filtered_loaded.
    intros r0 _. rewrite loaded_sales_status.
    pose proof (standard_sales_status_cases (r0 "sales_status")) as Hc. simpl in Hc.
    destruct Hs as [-> | ->];
      repeat (destruct Hc as [<-|Hc]; [reflexivity|]); contradiction. }
  split; [apply H; now left|]. split.
  - unfold group_stats, Sales_Follow_Up_Rate, pct_eq.
    pose proof (H by_ "Follow up" (or_introl eq_refl)) as H0.
    destruct (group by_ key _) as [|r rs]; [reflexivity|].
    rewrite H0. reflexivity.
  - unfold sales_dist, value_counts_reindex. cbn [map].
    rewrite !H by tauto. eexists. reflexivity.
Qed.

Lemma total_ones (f : Row -> Z) (rs : list Row) :
  Forall (fun r => f r = 1%Z) rs -> fold_right Z.add 0%Z (map f rs) = Z.of_nat (length rs).
Proof.
  induction 1 as [|r rs Hr _ IH]; [reflexivity|].
  cbn [map fold_right length]. rewrite Hr, IH. lia.
Qed.

(** X12. The date mask drops every record without a first call date, so
    under every filter each record of the filtered frame is an initial call:
    "Total Initial Calls" equals the number of filtered records. *)
Theorem initial_calls_equal_entries (today : date) (data : table) (fc : FilterCriteria) :
  Forall (fun r => r "is_initial_call" = VInt 1 /\ exists d, r "date_called" = VDate d)
         (rows (filtered_df fc
                  (load_full_sales_data_from_db today (Some data) expected_db_columns))) /\
  total_initial_calls
    (filtered_df fc (load_full_sales_data_from_db today (Some data) expected_db_columns)) =
  total_entries
    (filtered_df fc (load_full_sales_data_from_db today (Some data) expected_db_columns)).
Proof.
  assert (H : Forall (fun r => r "is_initial_call" = VInt 1 /\
                               exists d, r "date_called" = VDate d)
                (rows (filtered_df fc
                         (load_full_sales_data_from_db today (Some data)
                            expected_db_columns)))).
  { apply Forall_filtered_loaded. intros r0 Hm.
    unfold matches in Hm. apply andb_true_iff in Hm as [_ Hr].
    rewrite loaded_date_called, to_date_idem in Hr.
    rewrite loaded_is_initial_call, loaded_date_called.
    unfold in_range in Hr.
    destruct (to_date (r0 "first_call_date")) as [|s|z|q|d]; try discriminate.
    split; [reflexivity|now exists d]. }
  split; [exact H|].
  unfold total_initial_calls, total_entries, col_sum.
  apply total_ones. apply (Forall_impl _ (P := fun r => r "is_initial_call" = VInt 1 /\
                                                    exists d, r "date_called" = VDate d));
    [|exact H].
  intros r [-> _]. reflexivity.
Qed.

Lemma fold_date_min_le (ds : list date) :
  forall d x, In x (d :: ds) -> date_leb (fold_left date_min ds d) x = true.
Proof.
  induction ds as [|e ds IH]; intros d x Hin.
  - destruct Hin as [<-|[]]. apply date_leb_refl.
  - cbn [fold_left].
    assert (Hd : date_leb (date_min d e) d = true /\ date_leb (date_min d e) e = true).
    { unfold date_min. destruct (date_leb d e) eqn:E.
      - split; [apply date_leb_refl|exact E].
      - split; [|apply date_leb_refl].
        destruct (date_leb_total d e) as [H|H]; [congruence|exact H]. }
    destruct Hin as [<-|[<-|Hin]].
    + apply (date_leb_trans _ (date_min d e)); [|apply Hd]. apply IH. now left.
    + apply (date_leb_trans _ (date_min d e)); [|apply Hd]. apply IH. now left.
    + apply IH. now right.
Qed.

Lemma fold_date_max_ge (ds : list date) :
  forall d x, In x (d :: ds) -> date_leb x (fold_left date_max ds d) = true.
Proof.
  induction ds as [|e ds IH]; intros d x Hin.
  - destruct Hin as [<-|[]]. apply date_leb_refl.
  - cbn [fold_left].
    assert (Hd : date_leb d (date_max d e) = true /\ date_leb e (date_max d e) = true).
    { unfold date_max. destruct (date_leb d e) eqn:E.
      - split; [exact E|apply date_leb_refl].
      - split; [apply date_leb_refl|].
        destruct (date_leb_total d e) as [H|H]; [congruence|exact H]. }
    destruct Hin as [<-|[<-|Hin]].
    + apply (date_leb_trans _ (date_max d e)); [apply Hd|]. apply IH. now left.
    + apply (date_leb_trans _ (date_max d e)); [apply Hd|]. apply IH. now left.
    + apply IH. now right.
Qed.

Lemma in_dates_of (c : string) (df : DataFrame) (r : Row) (d : date) :
  In r (rows df) -> r c = VDate d -> In d (dates_of c df).
Proof.
  intros Hin Hr. unfold dates_of. apply in_flat_map. exists r. split; [exact Hin|].
  rewrite Hr. now left.
Qed.

(** The extent of the data contains the date of every record that has
    one. *)
Lemma data_extent_covers (today : date) (df : DataFrame) (r : Row) (d : date) :
  has_col "date_called" df = true ->
  In r (rows df) -> r "date_called" = VDate d ->
  date_leb (fst (data_extent today df)) d = true /\
  date_leb d (snd (data_extent today df)) = true.
Proof.
  intros Hc Hin Hr. unfold data_extent. rewrite Hc.
  assert (He : empty df = false).
  { unfold empty, has_col in *. destruct (columns df); [discriminate|].
    destruct (rows df); [contradiction|reflexivity]. }
  rewrite He. cbn [negb andb].
  pose proof (in_dates_of "date_called" df r d Hin Hr) as Hd.
  destruct (dates_of "date_called" df) as [|d0 ds]; [contradiction|].
  cbn [fst snd]. split; [now apply fold_date_min_le|now apply fold_date_max_ge].
Qed.

(** The filter of a fresh session on a frame whose [date_called] holds
    dates and nulls. *)
Lemma initial_filter_rows (day : date) (df : DataFrame) :
  has_col "date_called" df = true ->
  Forall (fun r => r "date_called" = VNull \/ exists d, r "date_called" = VDate d)
         (rows df) ->
  rows (filtered_df (initial_filter day df) df) =
  filter (fun r => notna (r "date_called")) (rows df).
Proof.
  intros Hc Ht. rewrite (rows_filtered _ _ Hc).
  apply filter_ext_in. intros r Hin.
  unfold matches, initial_filter.
  cbn [agent_filter country_filter status_filter].
  change (String.eqb "All" "All") with true. cbn [orb andb].
  destruct (proj1 (Forall_forall _ _) Ht r Hin) as [E|[d E]]; rewrite E.
  - reflexivity.
  - destruct (data_extent_covers day df r d Hc Hin E) as [H1 H2].
    unfold to_date, to_datetime, in_range. cbn [start_date end_date].
    rewrite H1, H2. reflexivity.
Qed.

(** X13. The filter of a fresh session, nothing selected and the range set
    to the extent of the data, keeps exactly the loaded records that have a
    first call date; the others are shown under no range at all. *)
Theorem initial_filter_keeps_dated_records (today day : date) (data : table) :
  rows (filtered_df
          (initial_filter day
             (load_full_sales_data_from_db today (Some data) expected_db_columns))
          (load_full_sales_data_from_db today (Some data) expected_db_columns)) =
  filter (fun r => notna (r "date_called"))
         (rows (load_full_sales_data_from_db today (Some data) expected_db_columns)).
Proof.
  apply initial_filter_rows.
  - now apply load_has_col.
  - apply Forall_loaded. intros r0. rewrite loaded_date_called.
    unfold to_date. destruct (to_datetime _); eauto.
Qed.

(** X14. The two date inputs keep the range well formed: after either
    callback [start_date <= end_date]; the date entered is always taken, the
    other bound moves only when it has to, and the selections stay. *)
Theorem date_inputs_keep_range (input : date) (fc : FilterCriteria) :
  (date_leb (start_date (update_start_date input fc))
            (end_date (update_start_date input fc)) = true /\
   start_date (update_start_date input fc) = input /\
   (date_leb input (end_date fc) = true ->
    end_date (update_start_date input fc) = end_date fc)) /\
  (date_leb (start_date (update_end_date input fc))
            (end_date (update_end_date input fc)) = true /\
   end_date (update_end_date input fc) = input /\
   (date_leb (start_date fc) input = true ->
    start_date (update_end_date input fc) = start_date fc)) /\
  agent_filter (update_start_date input fc) = agent_filter fc /\
  agent_filter (update_end_date input fc) = agent_filter fc /\
  country_filter (update_start_date input fc) = country_filter fc /\
  country_filter (update_end_date input fc) = country_filter fc /\
  status_filter (update_start_date input fc) = status_filter fc /\
  status_filter (update_end_date input fc) = status_filter fc.
Proof.
  unfold update_start_date, update_end_date. cbn [start_date end_date].
  rewrite !date_ltb_leb.
  destruct (date_leb input (end_date fc)) eqn:E1, (date_leb (start_date fc) input) eqn:E2;
    cbn [negb start_date end_date agent_filter country_filter status_filter];
    rewrite ?date_leb_refl; repeat split; auto; discriminate.
Qed.

Lemma completed_events_single (fc : FilterCriteria) (fdf : DataFrame) :
  has_col "next_follow_up_date" fdf = true ->
  completed_events fc fdf =
  flat_map (fun row =>
              match row "next_follow_up_date" with
              | VDate call_date =>
                  if date_leb call_date (end_date fc)
                  then [ mkevent row (row "next_follow_up_date")
                           "Next Follow-Up Call Completed" ]
                  else []
              | _ => []
              end) (rows fdf).
Proof.
  intros H. unfold completed_events, historical_call_date_cols_map.
  apply flat_map_ext. intros row. cbn [flat_map fst snd]. rewrite H, app_nil_r.
  destruct (row "next_follow_up_date"); reflexivity.
Qed.

(** The follow-up tab on a frame whose [next_follow_up_date] column holds
    dates and nulls. *)
Lemma follow_up_tab (fc : FilterCriteria) (fdf : DataFrame) :
  has_col "next_follow_up_date" fdf = true ->
  Forall (fun r => r "next_follow_up_date" = VNull \/
                   exists d, r "next_follow_up_date" = VDate d) (rows fdf) ->
  exists upcoming,
    upcoming_scheduled_df fc fdf = Some upcoming /\
    length (rows upcoming) + length (completed_events fc fdf) =
    length (filter (fun r => notna (r "next_follow_up_date")) (rows fdf)) /\
    Z.of_nat (length (completed_events fc fdf)) = total_follow_up_calls_overall fc fdf /\
    Forall (fun r => due (end_date fc) (r "next_follow_up_date") = false) (rows upcoming) /\
    Forall (fun e => after (end_date fc) (follow_up_date e) = false)
           (completed_events fc fdf).
Proof.
  intros H Ht. unfold upcoming_scheduled_df. rewrite H. eexists. split; [reflexivity|].
  unfold total_follow_up_calls_overall, follow_up_date_cols_for_counting.
  cbn [fold_left]. rewrite H, (completed_events_single fc fdf H), Z.add_0_l.
  cbn [rows select].
  induction Ht as [|r rs Hr _ IH]; [repeat split; constructor|].
  destruct IH as [IH1 [IH2 [IH3 IH4]]].
  cbn [filter flat_map map fold_right].
  destruct Hr as [E|[d E]]; rewrite !E.
  - change (after (end_date fc) VNull) with false.
    change (due (end_date fc) VNull) with false.
    change (notna VNull) with false.
    cbn [app length Z.b2z]. rewrite Z.add_0_l. repeat split; assumption.
  - change (after (end_date fc) (VDate d)) with (date_ltb (end_date fc) d).
    change (due (end_date fc) (VDate d)) with (date_leb d (end_date fc)).
    change (notna (VDate d)) with true.
    rewrite date_ltb_leb.
    destruct (date_leb d (end_date fc)) eqn:El; cbn [negb app length Z.b2z].
    + repeat split; [lia|lia|assumption|].
      constructor; [|exact IH4].
      cbn [follow_up_date].
      change (after (end_date fc) (VDate d)) with (date_ltb (end_date fc) d).
      now rewrite date_ltb_leb, El.
    + repeat split; [lia|lia| |assumption].
      constructor; [|exact IH3].
      rewrite E.
      change (due (end_date fc) (VDate d)) with (date_leb d (end_date fc)).
      exact El.
Qed.

(** X15. The follow-up tab under every filter: the table of upcoming calls
    is built (the column is there), every filtered record with a follow-up
    date is listed once, as upcoming when the date is after [end_date] and as
    a completed event otherwise, never as both, and the number of completed
    events is the overall follow-up total of the headline. *)
Theorem follow_up_tab_partition (today : date) (data : table) (fc : FilterCriteria) :
  exists upcoming,
    upcoming_scheduled_df fc
      (filtered_df fc
         (load_full_sales_data_from_db today (Some data) expected_db_columns)) =
    Some upcoming /\
    length (rows upcoming) +
    length (completed_events fc
              (filtered_df fc
                 (load_full_sales_data_from_db today (Some data) expected_db_columns))) =
    length (filter (fun r => notna (r "next_follow_up_date"))
              (rows (filtered_df fc
                       (load_full_sales_data_from_db today (Some data)
                          expected_db_columns)))) /\
    Z.of_nat
      (length (completed_events fc
                 (filtered_df fc
                    (load_full_sales_data_from_db today (Some data)
                       expected_db_columns)))) =
    total_follow_up_calls_overall fc
      (filtered_df fc
         (load_full_sales_data_from_db today (Some data) expected_db_columns)) /\
    Forall (fun r => due (end_date fc) (r "next_follow_up_date") = false) (rows upcoming) /\
    Forall (fun e => after (end_date fc) (follow_up_date e) = false)
           (completed_events fc
              (filtered_df fc
                 (load_full_sales_data_from_db today (Some data) expected_db_columns))).
Proof.
  apply follow_up_tab.
  - rewrite (has_col_columns "next_follow_up_date" _ _ (columns_filtered fc _)).
    apply load_has_col. reflexivity.
  - apply Forall_filtered_loaded. intros r0 _.
    rewrite loaded_next_follow_up_date. unfold to_date.
    destruct (to_datetime _); eauto.
Qed.



(** *** Labels are lower case *)

Lemma to_lower_not_upper (c : ascii) : Py.is_upper (Py.to_lower c) = false.
Proof.
  destruct c as [[] [] [] [] [] [] [] []]; vm_compute; reflexivity.
Qed.

Lemma has_upper_lower (s : string) : has_upper (Py.lower s) = false.
Proof.
  induction s as [|c s IH]; [reflexivity|].
  cbn [Py.lower has_upper]. now rewrite to_lower_not_upper, IH.
Qed.

Lemma has_upper_existsb (s : string) :
  has_upper s = existsb Py.is_upper (list_ascii_of_string s).
Proof.
  induction s as [|c s IH]; [reflexivity|].
  cbn [has_upper list_ascii_of_string existsb]. now rewrite IH.
Qed.

Lemma has_upper_rev (s : string) : has_upper (Py.rev s) = false -> has_upper s = false.
Proof.
  unfold Py.rev. rewrite !has_upper_existsb, list_ascii_of_string_of_list_ascii.
  intros H. apply not_true_is_false. intros Ht.
  apply existsb_exists in Ht as [c [Hin Hc]].
  assert (Hr : existsb Py.is_upper (List.rev (list_ascii_of_string s)) = true).
  { apply existsb_exists. exists c. split; [now apply in_rev in Hin|exact Hc]. }
  congruence.
Qed.

Lemma has_upper_rev_false (s : string) : has_upper s = false -> has_upper (Py.rev s) = false.
Proof.
  intros H. apply has_upper_rev. unfold Py.rev at 1.
  unfold Py.rev. rewrite list_ascii_of_string_of_list_ascii, rev_involutive.
  now rewrite string_of_list_ascii_of_string.
Qed.

Lemma has_upper_lstrip (s : string) : has_upper s = false -> has_upper (Py.lstrip s) = false.
Proof.
  induction s as [|c s IH]; [reflexivity|].
  cbn [Py.lstrip]. destruct (Py.is_space c); [|trivial].
  cbn [has_upper]. intros H. apply orb_false_iff in H as [_ H]. now apply IH.
Qed.

Lemma has_upper_strip (s : string) : has_upper s = false -> has_upper (Py.strip s) = false.
Proof.
  intros H. unfold Py.strip.
  now apply has_upper_rev_false, has_upper_lstrip, has_upper_rev_false, has_upper_lstrip.
Qed.

Lemma has_upper_append (a b : string) :
  has_upper (a ++ b)%string = has_upper a || has_upper b.
Proof.
  induction a as [|c a IH]; [reflexivity|].
  cbn [String.append has_upper]. now rewrite IH, orb_assoc.
Qed.

Lemma has_upper_replace (c : ascii) (by_ s : string) :
  has_upper by_ = false -> has_upper s = false -> has_upper (Py.replace c by_ s) = false.
Proof.
  intros Hb. induction s as [|d s IH]; [reflexivity|].
  cbn [has_upper Py.replace]. intros H. apply orb_false_iff in H as [Hd H].
  destruct (Ascii.eqb d c).
  - rewrite has_upper_append, Hb. now apply IH.
  - cbn [has_upper]. rewrite Hd. now apply IH.
Qed.

Lemma normalize_label_lower (c : string) : has_upper (normalize_label c) = false.
Proof.
  unfold normalize_label.
  apply has_upper_replace; [reflexivity|].
  apply has_upper_replace; [reflexivity|].
  apply has_upper_strip, has_upper_lower.
Qed.

Lemma rename_lower (old new : string) (df : DataFrame) :
  has_upper new = false ->
  Forall (fun c => has_upper c = false) (columns df) ->
  Forall (fun c => has_upper c = false) (columns (rename old new df)).
Proof.
  intros Hn H. unfold rename, relabel. cbn [columns].
  apply Forall_map. eapply Forall_impl; [|exact H].
  intros c Hc. cbv beta. now destruct (String.eqb c old).
Qed.

Lemma labelled_lower (w : Worksheet) :
  Forall (fun c => has_upper c = false) (columns (labelled w)).
Proof.
  assert (H0 : Forall (fun c => has_upper c = false)
                 (columns (relabel normalize_label (frame_of_records w)))).
  { unfold relabel. cbn [columns]. apply Forall_map, Forall_forall.
    intros c _. apply normalize_label_lower. }
  unfold labelled.
  destruct (has_col "agent_name" _); [apply rename_lower; [reflexivity|]|];
    (destruct (has_col "customer_name" _); [apply rename_lower; [reflexivity|]|]);
    exact H0.
Qed.

(** The labelled frame has no column under a label with an upper-case
    letter. *)
Lemma labelled_no_upper (w : Worksheet) (c : string) :
  has_upper c = true -> has_col c (labelled w) = false.
Proof.
  intros Hc. apply not_true_is_false. intros H.
  unfold has_col, Py.mem in H. apply existsb_exists in H as [c' [Hin He]].
  apply String.eqb_eq in He. subst c'.
  pose proof (proj1 (Forall_forall _ _) (labelled_lower w) c Hin) as Hl.
  cbv beta in Hl. congruence.
Qed.

Lemma Forall2_right {A B} (P : B -> Prop) (l : list A) (l' : list B) :
  Forall2 (fun _ b => P b) l l' -> Forall P l'.
Proof.
  induction 1; constructor; assumption.
Qed.

Lemma never_filled (src : Source) (c : string) :
  In c (skipn 2 expected_db_columns) ->
  has_upper c = true ->
  missing_default c = VStr EmptyString ->
  Forall (fun t => row_of expected_db_columns t c = VNull)
         (data_to_insert expected_db_columns (fetch_data_from_gsheets src)).
Proof.
  intros Hin Hu Hd.
  assert (Hempty : Forall (fun t => row_of expected_db_columns t c = VNull)
                     (data_to_insert expected_db_columns empty_frame)) by constructor.
  destruct src as [| | | |w]; try exact Hempty.
  destruct (has_col "email" (labelled w)) eqn:He.
  - assert (Hin' : In c expected_db_columns) by (simpl in *; tauto).
    pose proof (stored_cell w c He Hin' (or_intror Hin)) as H.
    rewrite (labelled_no_upper w c Hu), Hd in H.
    exact (Forall2_right _ _ _ H).
  - unfold fetch_data_from_gsheets, fetch_records. rewrite has_email_prepare, He.
    exact Hempty.
Qed.

(** X18. The synchroniser never fills [Calling_Stamp] and [Signup_Date]:
    the labels of the sheet are lower-cased before the columns are matched
    against the expected ones, so for every source each tuple built for the
    store has NULL under both, also when the sheet has a column of that
    name; and no normalised label of a sheet has an upper-case letter. *)
Theorem capitalised_columns_never_filled (src : Source) :
  Forall (fun t => row_of expected_db_columns t "Calling_Stamp" = VNull /\
                   row_of expected_db_columns t "Signup_Date" = VNull)
         (data_to_insert expected_db_columns (fetch_data_from_gsheets src)) /\
  (forall w, Forall (fun c => has_upper c = false) (columns (labelled w))).
Proof.
  split; [|exact labelled_lower].
  pose proof (never_filled src "Calling_Stamp") as H1.
  pose proof (never_filled src "Signup_Date") as H2.
  apply Forall_forall. intros t Hin. split.
  - refine (proj1 (Forall_forall _ _) (H1 _ eq_refl eq_refl) t Hin). simpl. tauto.
  - refine (proj1 (Forall_forall _ _) (H2 _ eq_refl eq_refl) t Hin). simpl. tauto.
Qed.

(** *** The webhook *)



(** X19. The vocabulary mapping is stable on its own output: loading a
    table that already holds the dashboard's values changes neither the
    status nor the sales status. *)
Theorem standard_values_fixed (v : value) :
  standard_status (standard_status v) = standard_status v /\
  standard_sales_status (standard_sales_status v) = standard_sales_status v.
Proof.
  split.
  - pose proof (standard_status_cases v) as H. simpl in H.
    repeat (destruct H as [<-|H]; [reflexivity|]). contradiction.
  - pose proof (standard_sales_status_cases v) as H. simpl in H.
    repeat (destruct H as [<-|H]; [reflexivity|]). contradiction.
Qed.
End Pipeline.

(** * The scenarios, with the ISO date reader and the decimal reader *)

(** C1 (as amended). In the two-row scenario a run stores exactly one tuple:
    the second row is rejected for its empty email.  The stored tuple holds
    the status as the sheet has it, "answered call", the amount 1000 and the
    date of the first call; the table has no [is_initial_call] column.  The
    record the dashboard loads from that tuple has status "Answered", amount
    1000 and [is_initial_call] 1. *)
Theorem end_to_end_scenario (py_str : value -> string) (today : date) (db : database) :
  main iso_date_reader decimal_reader py_str no_faults (Sheet scenario_sheet) db =
  (Some [ [ VNull; VStr "a@x.com"; VNull; VNull; VNull; VStr "A";
            VDate (mkdate 2024 1 1); VStr "answered call"; VNull; VNull; VNull; VNull;
            VNull; VNum (inject_Z 1000); VNull; VNull; VNull; VNull ] ], Done) /\
  rejected_count scenario_sheet = 1 /\
  map (fun r => (r "email", r "status", r "sales_amount", r "is_initial_call"))
      (rows (load_full_sales_data_from_db iso_date_reader decimal_reader py_str today
               (fst (main iso_date_reader decimal_reader py_str no_faults
                       (Sheet scenario_sheet) db))
               expected_db_columns)) =
  [ (VStr "a@x.com", VStr "Answered", VNum (inject_Z 1000), VInt 1) ].
Proof.
  assert (H : main iso_date_reader decimal_reader py_str no_faults (Sheet scenario_sheet) db =
              (Some [ [ VNull; VStr "a@x.com"; VNull; VNull; VNull; VStr "A";
                        VDate (mkdate 2024 1 1); VStr "answered call"; VNull; VNull; VNull;
                        VNull; VNull; VNum (inject_Z 1000); VNull; VNull; VNull; VNull ] ],
               Done)).
  { rewrite main_accepted; [|reflexivity|vm_compute; lia].
    rewrite insert_no_faults. vm_compute. reflexivity. }
  rewrite H. split; [reflexivity|]. split; [reflexivity|].
  vm_compute. reflexivity.
Qed.

(** C1, as the specification states it, fails: the tuple the run stores has
    the status of the sheet, not "Answered". *)
Lemma scenario_stored_status_is_raw :
  ~ (exists t,
       fst (main iso_date_reader decimal_reader scenario_str no_faults
              (Sheet scenario_sheet) None) = Some [t] /\
       row_of expected_db_columns t "status" = VStr "Answered" /\
       row_of expected_db_columns t "sales_amount" = VNum (inject_Z 1000) /\
       row_of expected_db_columns t "is_initial_call" = VInt 1).
Proof.
  intros [t [Ht [Hs _]]].
  vm_compute in Ht. injection Ht as <-.
  vm_compute in Hs. discriminate Hs.
Qed.

(** C3, as the specification states it, fails for the counts shown per
    agent.  With a follow-up on 2024-01-10, a load on 2024-01-15 and a filter
    range that ends on 2024-01-05, the agent's follow-up count is 1, the
    value of the load, while no follow-up field is due by the end of the
    range; the overall total, which is recomputed, is 0. *)
Lemma agent_count_ignores_end_date :
  total_follow_up_calls_agent "A"
    (filtered_df iso_date_reader first_days
       (load_full_sales_data_from_db iso_date_reader decimal_reader scenario_str load_day
          (Some follow_up_table) expected_db_columns)) = 1%Z /\
  total (follow_ups_due (end_date first_days))
    (filter (fun r => eq_str (r "agent") "A")
       (rows (filtered_df iso_date_reader first_days
                (load_full_sales_data_from_db iso_date_reader decimal_reader scenario_str
                   load_day (Some follow_up_table) expected_db_columns)))) = 0%Z /\
  total_follow_up_calls_overall first_days
    (filtered_df iso_date_reader first_days
       (load_full_sales_data_from_db iso_date_reader decimal_reader scenario_str load_day
          (Some follow_up_table) expected_db_columns)) = 0%Z /\
  total_follow_up_calls_agent "A"
    (filtered_df iso_date_reader first_days
       (load_full_sales_data_from_db iso_date_reader decimal_reader scenario_str load_day
          (Some follow_up_table) expected_db_columns)) <>
  total (follow_ups_due (end_date first_days))
    (filter (fun r => eq_str (r "agent") "A")
       (rows (filtered_df iso_date_reader first_days
                (load_full_sales_data_from_db iso_date_reader decimal_reader scenario_str
                   load_day (Some follow_up_table) expected_db_columns)))).
Proof.
  repeat split; try (vm_compute; reflexivity).
  vm_compute. discriminate.
Qed.



Lemma scenario_labels_distinct : NoDup (columns (labelled scenario_sheet)).
Proof.
  vm_compute.
  repeat (constructor;
          [simpl; intros H; repeat (destruct H as [H|H]; [discriminate H|]); exact H|]).
  constructor.
Qed.


(** The filter on the loaded table of the follow-up scenario. *)
Lemma filter_is_conjunction_witness :
  has_col "date_called"
    (load_full_sales_data_from_db iso_date_reader decimal_reader scenario_str load_day
       (Some follow_up_table) expected_db_columns) = true /\
  rows (filtered_df iso_date_reader first_days
          (load_full_sales_data_from_db iso_date_reader decimal_reader scenario_str load_day
             (Some follow_up_table) expected_db_columns)) =
  filter (matches iso_date_reader first_days)
         (rows (load_full_sales_data_from_db iso_date_reader decimal_reader scenario_str
                  load_day (Some follow_up_table) expected_db_columns)).
Proof.
  assert (H : has_col "date_called"
                (load_full_sales_data_from_db iso_date_reader decimal_reader scenario_str
                   load_day (Some follow_up_table) expected_db_columns) = true)
    by reflexivity.
  split; [exact H|].
  exact (proj1 (filter_is_conjunction iso_date_reader first_days _ H)).
Defined.

(** A sheet whose only row is rejected leaves a table of one tuple as it
    is. *)
Lemma no_accepted_row_no_mutation_witness :
  no_accepted_row (Sheet rejected_sheet) /\
  main iso_date_reader decimal_reader scenario_str no_faults (Sheet rejected_sheet)
       (Some follow_up_table) = (Some follow_up_table, Exited).
Proof.
  assert (H : no_accepted_row (Sheet rejected_sheet)) by (right; reflexivity).
  split; [exact H|].
  exact (proj1 (no_accepted_row_no_mutation iso_date_reader decimal_reader scenario_str
                  (Sheet rejected_sheet) H) no_faults (Some follow_up_table)).
Defined.

(** ** The further properties in the end-to-end scenario *)

(** The scenario sheet has an accepted row: the run loads it and the tuple
    it stores has the 18 cells of the schema. *)
Lemma stored_tuples_shape_witness :
  empty (fetch_data_from_gsheets iso_date_reader decimal_reader scenario_str
           (Sheet scenario_sheet)) = false /\
  snd (main iso_date_reader decimal_reader scenario_str no_faults
         (Sheet scenario_sheet) None) = Done.
Proof.
  assert (H : empty (fetch_data_from_gsheets iso_date_reader decimal_reader scenario_str
                       (Sheet scenario_sheet)) = false) by reflexivity.
  split; [exact H|].
  exact (proj1 (stored_tuples_shape iso_date_reader decimal_reader scenario_str
                  (Sheet scenario_sheet) None H)).
Defined.

(** The scenario run leaves the same table on a fresh database and on one
    that held a row. *)
Lemma full_refresh_forgets_previous_rows_witness :
  empty (fetch_data_from_gsheets iso_date_reader decimal_reader scenario_str
           (Sheet scenario_sheet)) = false /\
  fst (main iso_date_reader decimal_reader scenario_str no_faults
         (Sheet scenario_sheet) None) =
  fst (main iso_date_reader decimal_reader scenario_str no_faults
         (Sheet scenario_sheet) (Some [ [ VStr "old" ] ])).
Proof.
  assert (H : empty (fetch_data_from_gsheets iso_date_reader decimal_reader scenario_str
                       (Sheet scenario_sheet)) = false) by reflexivity.
  split; [exact H|].
  exact (full_refresh_forgets_previous_rows iso_date_reader decimal_reader scenario_str
           (Sheet scenario_sheet) None (Some [ [ VStr "old" ] ]) H).
Defined.

Lemma stored_sales_amount_is_number_witness :
  (NoDup (columns (labelled scenario_sheet)) /\
   has_col "email" (labelled scenario_sheet) = true) /\
  Forall2
    (fun r0 t =>
       row_of expected_db_columns t "sales_amount" =
       VNum (if has_col "sales_amount" (labelled scenario_sheet)
             then amount_of decimal_reader scenario_str (r0 "sales_amount")
             else 0%Q))
    (filter email_present (rows (labelled scenario_sheet)))
    (data_to_insert expected_db_columns
       (fetch_data_from_gsheets iso_date_reader decimal_reader scenario_str
          (Sheet scenario_sheet))).
Proof.
  assert (H0 : NoDup (columns (labelled scenario_sheet))) by exact scenario_labels_distinct.
  assert (H : has_col "email" (labelled scenario_sheet) = true) by reflexivity.
  split; [split; [exact H0|exact H]|].
  exact (stored_sales_amount_is_number iso_date_reader decimal_reader scenario_str
           scenario_sheet H0 H).
Defined.

Lemma stored_dates_are_dates_witness :
  (NoDup (columns (labelled scenario_sheet)) /\
   has_col "email" (labelled scenario_sheet) = true /\
   In "first_call_date" date_cols_from_sheet) /\
  Forall2
    (fun r0 t =>
       row_of expected_db_columns t "first_call_date" =
       (if has_col "first_call_date" (labelled scenario_sheet)
        then to_date iso_date_reader (r0 "first_call_date")
        else VNull) /\
       (row_of expected_db_columns t "first_call_date" = VNull \/
        exists d, row_of expected_db_columns t "first_call_date" = VDate d))
    (filter email_present (rows (labelled scenario_sheet)))
    (data_to_insert expected_db_columns
       (fetch_data_from_gsheets iso_date_reader decimal_reader scenario_str
          (Sheet scenario_sheet))).
Proof.
  assert (H0 : NoDup (columns (labelled scenario_sheet))) by exact scenario_labels_distinct.
  assert (H1 : has_col "email" (labelled scenario_sheet) = true) by reflexivity.
  assert (H2 : In "first_call_date" date_cols_from_sheet) by (left; reflexivity).
  split; [split; [exact H0|split; [exact H1|exact H2]]|].
  exact (stored_dates_are_dates iso_date_reader decimal_reader scenario_str
           scenario_sheet "first_call_date" H0 H1 H2).
Defined.

Lemma whitespace_email_stored_as_null_witness :
  (NoDup (columns (labelled scenario_sheet)) /\
   has_col "email" (labelled scenario_sheet) = true) /\
  Forall2
    (fun r0 t =>
       (row_of expected_db_columns t "email" = VNull <-> whitespace_only (r0 "email")) /\
       (~ whitespace_only (r0 "email") ->
        row_of expected_db_columns t "email" = r0 "email"))
    (filter email_present (rows (labelled scenario_sheet)))
    (data_to_insert expected_db_columns
       (fetch_data_from_gsheets iso_date_reader decimal_reader scenario_str
          (Sheet scenario_sheet))).
Proof.
  assert (H0 : NoDup (columns (labelled scenario_sheet))) by exact scenario_labels_distinct.
  assert (H : has_col "email" (labelled scenario_sheet) = true) by reflexivity.
  split; [split; [exact H0|exact H]|].
  exact (whitespace_email_stored_as_null iso_date_reader decimal_reader scenario_str
           scenario_sheet H0 H).
Defined.

